(** * neko-rooms: the room manager (internal/room/manager.go)

    A shallow embedding of the room lifecycle orchestrator: the label
    codec, the port allocator, the workload specification built by
    [Create], and the facade operations [List], [Get], [Remove], [Start],
    [Stop] and [Restart], run against a model of the container engine. *)

From stdpp Require Import gmap strings list sorting pretty.
From Stdlib Require Import ZArith Lia Ascii String.

Local Open Scope Z_scope.

(** ** Go library functions used by the manager *)

Module Go.

(** [fmt.Sprintf("%d", n)]: the decimal rendering of an integer. *)
Definition Sprintf_d (n : Z) : string := pretty n.

(** [strings.Join(elems, sep)]. *)
Fixpoint Join (elems : list string) (sep : string) : string :=
  match elems with
  | [] => ""
  | [e] => e
  | e :: rest => e +:+ sep +:+ Join rest sep
  end.

(** Value of a decimal digit character, if it is one. *)
Definition digitOf (c : ascii) : option Z :=
  let n := Z.of_N (N_of_ascii c) in
  if (48 <=? n) && (n <=? 57) then Some (n - 48) else None.

(** The digit loop of a base-10 parser: the accumulator is multiplied by
    ten and the next digit added; any other character is an error. *)
Fixpoint parseDigits (s : string) (acc : Z) : option Z :=
  match s with
  | EmptyString => Some acc
  | String c rest =>
      match digitOf c with
      | Some d => parseDigits rest (10 * acc + d)
      | None => None
      end
  end.

(** Parsing of an unsigned decimal integer, in the manner of
    [strconv.ParseUint(s, 10, _)] without a bound on the value: the empty
    string and any character that is not a digit are refused. *)
Definition parseDecimal (s : string) : option Z :=
  match s with
  | EmptyString => None
  | _ => parseDigits s 0
  end.

End Go.

(** ** Errors and fallible results *)

(** The error taxonomy of the manager.  [Errorf] is an error made by
    [fmt.Errorf] in the source; [EngineError] is an error handed back by a
    primitive of the container engine; the others are the named errors of
    the design. *)
Inductive error : Type :=
  | Errorf (msg : string)
  | EngineError (msg : string)
  | InvalidRequestError
  | PortExhaustionError
  | CorruptMetadataError (key : string)
  | NotFoundError (id : string).

(** A Go result [(T, error)] in which exactly one side is meaningful. *)
Inductive result (T : Type) : Type :=
  | Ok (v : T)
  | Err (e : error).
Arguments Ok {T} v.
Arguments Err {T} e.

Global Instance result_ret : MRet result := fun _ v => Ok v.
Global Instance result_bind : MBind result := fun _ _ k r =>
  match r with
  | Ok v => k v
  | Err e => Err e
  end.

Definition fromLookup {T : Type} (o : option T) (e : error) : result T :=
  match o with Some v => Ok v | None => Err e end.

(** ** Data model *)

(** Modelled from the spec: the type of a leased port range is declared
    outside manager.go.  It is the PortRange of the data model, with both
    bounds included; the manager reads its fields [Min] and [Max] and the
    design gives them as integers.  The fields hold the numbers; the
    arithmetic the manager does on them is that of [GoInt] below. *)
Module EprPorts.
Record t : Type := mk { Min : Z; Max : Z }.

Definition contains (r : t) (p : Z) : Prop := Min r <= p <= Max r.
Definition wf (r : t) : Prop := Min r <= Max r.
Definition size (r : t) : Z := Max r - Min r + 1.
(** Two ranges are disjoint when no port lies in both. *)
Definition disjoint (a b : t) : Prop := forall p, contains a p -> ~ contains b p.
End EprPorts.

(** The integer type of the port bounds and of [MaxConnections] is
    declared outside manager.go and is a parameter here: one of Go's
    fixed-width integer types, signed or unsigned, given by its least and
    its greatest value.  Go's arithmetic on such a type wraps
    around: the result is the number of the type that differs from the
    exact one by a multiple of the number of values of the type. *)
Class IntType : Type := {
  intMin : Z;
  intMax : Z;
  intBounds : intMin <= 0 /\ 0 < intMax
}.

Module GoInt.
Definition inRange `{IntType} (z : Z) : Prop := intMin <= z <= intMax.
Definition wrap `{IntType} (z : Z) : Z :=
  intMin + (z - intMin) mod (intMax - intMin + 1).
(** [a + b] and [a - b] in the integer type. *)
Definition add `{IntType} (a b : Z) : Z := wrap (a + b).
Definition sub `{IntType} (a b : Z) : Z := wrap (a - b).
End GoInt.

(** Modelled from the spec: [config.Room] is declared outside manager.go.
    The fields are the ones the manager reads; [EprMin] and [EprMax] bound
    the configured window of ports that may be leased. *)
Module config.
Record Room : Type := {
  TraefikDomain : string;
  TraefikEntrypoint : string;
  TraefikCertresolver : string;
  TraefikNetwork : string;
  NAT1To1IPs : list string;
  EprMin : Z;
  EprMax : Z
}.
End config.

(** Modelled from the spec: [types.RoomSettings] is declared outside
    manager.go.  It holds the name, the number of connections, and the
    workload options, whose schema is not the manager's concern. *)
Module RoomSettings.
Record t (Options : Type) : Type := {
  Name : string;
  MaxConnections : Z;
  Opts : Options
}.
Arguments Name {Options} _.
Arguments MaxConnections {Options} _.
Arguments Opts {Options} _.
End RoomSettings.

(** Modelled from the spec: [types.RoomEntry] is declared outside
    manager.go.  It is the read model returned by [List], with the fields
    the loop of [List] fills in. *)
Module RoomEntry.
Record t : Type := {
  ID : string;
  URL : string;
  Name : string;
  MaxConnections : Z;
  Image : string;
  Running : bool;
  Status : string;
  Created : Z
}.
End RoomEntry.

(** ** The container engine *)

(** [nat.PortBinding]. *)
Record PortBinding : Type := { HostIP : string; HostPort : string }.

(** [container.Config], [container.HostConfig] and
    [network.NetworkingConfig], with the fields [Create] fills in. *)
Record ContainerConfig : Type := {
  Hostname : string;
  Domainname : string;
  cfgExposedPorts : gset string;
  cfgEnv : list string;
  cfgImage : string;
  cfgLabels : gmap string string
}.

Record HostConfig : Type := {
  PortBindings : gmap string (list PortBinding);
  LogConfigType : string;
  RestartPolicyName : string;
  CapAdd : list string;
  ShmSize : Z
}.

Record NetworkingConfig : Type := { EndpointsConfig : gset string }.

(** A workload as the engine holds it and reports it on listing and
    inspection.  Its labels, environment and image are those of the
    configuration it was created with. *)
Module Container.
Record t : Type := {
  ID : string;
  Name : string;
  State : string;
  Status : string;
  Created : Z;
  Config : ContainerConfig;
  Host : HostConfig;
  Networking : NetworkingConfig
}.

Definition Labels (c : t) : gmap string string := cfgLabels (Config c).
Definition Env (c : t) : list string := cfgEnv (Config c).
Definition Image (c : t) : string := cfgImage (Config c).

Definition withState (c : t) (state status : string) : t :=
  {| ID := ID c; Name := Name c; State := state; Status := status;
     Created := Created c; Config := Config c; Host := Host c;
     Networking := Networking c |}.
End Container.

(** The container engine is an external collaborator, reached through the
    Docker client.  Its state is the inventory of workloads; [fault] says
    which requests it refuses, [freshID] names the next workload, [clock]
    stamps it, and [journal] keeps the state-changing requests it received,
    oldest first.  A refused request leaves the inventory as it was. *)
Module Engine.
Inductive Call : Type :=
  | CallList
  | CallInspect (id : string)
  | CallCreate (name : string)
  | CallStart (id : string)
  | CallStop (id : string)
  | CallRemove (id : string)
  | CallRestart (id : string).

Record t : Type := {
  inventory : list Container.t;
  fault : Call -> option error;
  freshID : list Container.t -> string;
  clock : Z;
  journal : list Call
}.

Definition record (call : Call) (e : t) (inv : list Container.t) : t :=
  {| inventory := inv; fault := fault e; freshID := freshID e;
     clock := clock e; journal := journal e ++ [call] |}.

Definition hasID (id : string) (c : Container.t) : bool :=
  bool_decide (Container.ID c = id).

Definition setState (id state status : string) (inv : list Container.t)
  : list Container.t :=
  map (fun c => if hasID id c then Container.withState c state status else c) inv.

Definition ContainerList (e : t) : result (list Container.t) :=
  match fault e CallList with
  | Some err => Err err
  | None => Ok (inventory e)
  end.

Definition ContainerInspect (id : string) (e : t) : result Container.t :=
  match fault e (CallInspect id) with
  | Some err => Err err
  | None => fromLookup (find (hasID id) (inventory e)) (NotFoundError id)
  end.

Definition ContainerCreate (cfg : ContainerConfig) (host : HostConfig)
    (net : NetworkingConfig) (name : string) (e : t) : t * result string :=
  match fault e (CallCreate name) with
  | Some err => (record (CallCreate name) e (inventory e), Err err)
  | None =>
      let id := freshID e (inventory e) in
      let c := {| Container.ID := id; Container.Name := name;
                  Container.State := "created";
                  Container.Status := "Created";
                  Container.Created := clock e;
                  Container.Config := cfg; Container.Host := host;
                  Container.Networking := net |} in
      (record (CallCreate name) e (inventory e ++ [c]), Ok id)
  end.

Definition ContainerStart (id : string) (e : t) : t * option error :=
  match fault e (CallStart id) with
  | Some err => (record (CallStart id) e (inventory e), Some err)
  | None => (record (CallStart id) e (setState id "running" "Up" (inventory e)), None)
  end.

Definition ContainerStop (id : string) (e : t) : t * option error :=
  match fault e (CallStop id) with
  | Some err => (record (CallStop id) e (inventory e), Some err)
  | None => (record (CallStop id) e (setState id "exited" "Exited" (inventory e)), None)
  end.

Definition ContainerRestart (id : string) (e : t) : t * option error :=
  match fault e (CallRestart id) with
  | Some err => (record (CallRestart id) e (inventory e), Some err)
  | None => (record (CallRestart id) e (setState id "running" "Up" (inventory e)), None)
  end.

Definition ContainerRemove (id : string) (e : t) : t * option error :=
  match fault e (CallRemove id) with
  | Some err => (record (CallRemove id) e (inventory e), Some err)
  | None =>
      (record (CallRemove id) e (filter (fun c => Container.ID c <> id) (inventory e)),
       None)
  end.
End Engine.

(** ** The room manager (package [room]) *)

Module room.
Import Go.

Definition nekoImage : string := "m1k1o/neko:latest".
Definition containerPrefix : string := "neko-room-".
Definition frontendPort : Z := 8080.
Definition labelCanary : string := "m1k1o-neko-rooms".

Record RoomManagerCtx : Type := { config : config.Room }.

(** *** Helpers of the package that live outside manager.go *)

(** Modelled from the spec: the canary test behind [listContainers] and
    [inspectContainer], which are not in manager.go.  A workload belongs to
    this system when its canary key holds the constant marker value. *)
Definition isRoom (c : Container.t) : bool :=
  bool_decide (Container.Labels c !! "m1k1o.neko_rooms.canary" = Some labelCanary).

(** Modelled from the spec: [listContainers] is not in manager.go.  It
    enumerates the workloads of the engine, stopped ones included, and keeps
    those that bear the canary marker. *)
Definition listContainers (e : Engine.t) : result (list Container.t) :=
  containers ← Engine.ContainerList e;
  mret (filter (fun c => isRoom c = true) containers).

(** Modelled from the spec: [inspectContainer] is not in manager.go.  It
    fetches one workload by id and rejects, as not found, an id that does not
    exist or whose workload is not canary-marked. *)
Definition inspectContainer (id : string) (e : Engine.t) : result Container.t :=
  container ← Engine.ContainerInspect id e;
  if isRoom container then Ok container else Err (NotFoundError id).

(** Modelled from the spec: [getEprFromLabels] is not in manager.go.  The
    bounds are decimal integers under the keys [epr.min] and [epr.max];
    a missing key or a bound that does not parse is corrupt metadata. *)
Definition getEprFromLabels (labels : gmap string string) : result EprPorts.t :=
  minStr ← fromLookup (labels !! "m1k1o.neko_rooms.epr.min")
             (CorruptMetadataError "m1k1o.neko_rooms.epr.min");
  min ← fromLookup (parseDecimal minStr)
          (CorruptMetadataError "m1k1o.neko_rooms.epr.min");
  maxStr ← fromLookup (labels !! "m1k1o.neko_rooms.epr.max")
             (CorruptMetadataError "m1k1o.neko_rooms.epr.max");
  max ← fromLookup (parseDecimal maxStr)
          (CorruptMetadataError "m1k1o.neko_rooms.epr.max");
  mret (EprPorts.mk min max).

(** Modelled from the spec: the set of leased ranges is rebuilt from every
    canary-marked workload of the inventory; one range that does not decode
    fails the whole collection. *)
Definition getUsedPorts (e : Engine.t) : result (list EprPorts.t) :=
  containers ← listContainers e;
  mapM (fun c => getEprFromLabels (Container.Labels c)) containers.

Definition byStart (a b : EprPorts.t) : Prop := EprPorts.Min a <= EprPorts.Min b.

Global Instance byStart_dec : RelDecision byStart.
Proof. intros a b. unfold byStart. apply _. Defined.

(** Modelled from the spec: the scan of the port allocator over the leased
    ranges sorted by start.  [cur] is the lowest port not yet ruled out; a
    gap of [size] free ports in front of the next lease ends the scan,
    otherwise the lease is skipped. *)
Fixpoint scan (size cur : Z) (leased : list EprPorts.t) : Z :=
  match leased with
  | [] => cur
  | r :: rest =>
      if size <=? EprPorts.Min r - cur then cur
      else scan size (Z.max cur (EprPorts.Max r + 1)) rest
  end.

(** Modelled from the spec: [allocate(requestedSize, globalWindow,
    existingRanges)], the allocator behind [allocatePorts], which is not in
    manager.go.  Sort the leases by start, scan the window from its lower
    bound for the first gap of [requestedSize] ports, and return
    [gapStart, gapStart + requestedSize - 1] when it ends inside the
    window. *)
Definition allocate (requestedSize : Z) (globalWindow : EprPorts.t)
    (existingRanges : list EprPorts.t) : result EprPorts.t :=
  if requestedSize <=? 0 then Err InvalidRequestError
  else
    let gapStart := scan requestedSize (EprPorts.Min globalWindow)
                      (merge_sort byStart existingRanges) in
    if gapStart + requestedSize - 1 <=? EprPorts.Max globalWindow
    then Ok (EprPorts.mk gapStart (gapStart + requestedSize - 1))
    else Err PortExhaustionError.

(** A block of [size] ports starting at [s] is free: it lies inside the
    window and shares no port with an existing lease. *)
Definition freeBlock (size : Z) (globalWindow : EprPorts.t)
    (existing : list EprPorts.t) (s : Z) : Prop :=
  EprPorts.Min globalWindow <= s /\ s + size - 1 <= EprPorts.Max globalWindow /\
  Forall (EprPorts.disjoint (EprPorts.mk s (s + size - 1))) existing.

Definition window (manager : RoomManagerCtx) : EprPorts.t :=
  EprPorts.mk (config.EprMin (config manager)) (config.EprMax (config manager)).

(** Modelled from the spec: [allocatePorts] reads the leases of the current
    inventory and allocates inside the configured window. *)
Definition allocatePorts (manager : RoomManagerCtx) (e : Engine.t) (sum : Z)
  : result EprPorts.t :=
  existing ← getUsedPorts e;
  allocate sum (window manager) existing.

(** The metadata of a workload decodes when none of the failures of the
    label codec occurs: the name label and the url label are present, and
    both bounds of the port range are present and parse. *)
Definition decodable (labels : gmap string string) : Prop :=
  is_Some (labels !! "m1k1o.neko_rooms.name") /\
  is_Some (labels !! "m1k1o.neko_rooms.url") /\
  (exists minStr, labels !! "m1k1o.neko_rooms.epr.min" = Some minStr /\
                  is_Some (parseDecimal minStr)) /\
  (exists maxStr, labels !! "m1k1o.neko_rooms.epr.max" = Some maxStr /\
                  is_Some (parseDecimal maxStr)).

(** *** manager.go *)

(** The body of the loop of [List]: one entry from one container. *)
Definition entryOf `{IntType} (container : Container.t) : result RoomEntry.t :=
  roomName ← fromLookup (Container.Labels container !! "m1k1o.neko_rooms.name")
               (Errorf "Damaged container labels: name not found.");
  URL ← fromLookup (Container.Labels container !! "m1k1o.neko_rooms.url")
          (Errorf "Damaged container labels: url not found.");
  epr ← getEprFromLabels (Container.Labels container);
  mret {| RoomEntry.ID := Container.ID container;
          RoomEntry.URL := URL;
          RoomEntry.Name := roomName;
          RoomEntry.MaxConnections :=
            GoInt.add (GoInt.sub (EprPorts.Max epr) (EprPorts.Min epr)) 1;
          RoomEntry.Image := Container.Image container;
          RoomEntry.Running := bool_decide (Container.State container = "running");
          RoomEntry.Status := Container.Status container;
          RoomEntry.Created := Container.Created container |}.

(** The loop of [List]: entries are appended in inventory order and the
    first container that does not decode ends the call with its error. *)
Fixpoint listLoop `{IntType} (containers : list Container.t)
    (acc : list RoomEntry.t) : result (list RoomEntry.t) :=
  match containers with
  | [] => Ok acc
  | container :: rest =>
      match entryOf container with
      | Err err => Err err
      | Ok entry => listLoop rest (acc ++ [entry])
      end
  end.

Definition List `{IntType} (manager : RoomManagerCtx) (e : Engine.t)
  : result (list RoomEntry.t) :=
  containers ← listContainers e;
  listLoop containers [].

(** The loop [for port := epr.Min; port <= epr.Max; port++] of [Create],
    run for the [n] ports that remain from [port] on.  [publishPorts] runs
    it for the [max - min + 1] ports of the range (none when [max < min]),
    which is what the source does whenever its loop ends.  For a range that
    ends at the greatest value of the integer type, [port++] wraps around
    and the loop of the source does not end: [Create] does not return
    there, and what is proved of [Create] is proved of a call that
    returned. *)
Fixpoint publishLoop (n : nat) (port : Z)
    (portBindings : gmap string (list PortBinding)) (exposedPorts : gset string)
  : gmap string (list PortBinding) * gset string :=
  match n with
  | O => (portBindings, exposedPorts)
  | S n' =>
      let portKey := Sprintf_d port +:+ "/udp" in
      publishLoop n' (port + 1)
        (<[portKey := [{| HostIP := "0.0.0.0"; HostPort := Sprintf_d port |}]]> portBindings)
        ({[portKey]} ∪ exposedPorts)
  end.

Definition publishPorts (epr : EprPorts.t)
  : gmap string (list PortBinding) * gset string :=
  publishLoop (Z.to_nat (EprPorts.Max epr - EprPorts.Min epr + 1)) (EprPorts.Min epr)
    ∅ {[Sprintf_d frontendPort +:+ "/udp"]}.

Definition urlProto (manager : RoomManagerCtx) : string :=
  if bool_decide (config.TraefikCertresolver (config manager) <> "")
  then "https" else "http".

(** The labels of [Create]: the map literal, entry by entry, followed by the
    two optional HTTPS entries. *)
Definition roomLabels (manager : RoomManagerCtx) (roomName : string)
    (epr : EprPorts.t) : gmap string string :=
  let cfg := config manager in
  let containerName := containerPrefix +:+ roomName in
  let labels : gmap string string := ∅ in
  let labels := <["m1k1o.neko_rooms.name" := roomName]> labels in
  let labels := <["m1k1o.neko_rooms.url" :=
    urlProto manager +:+ "://" +:+ config.TraefikDomain cfg +:+ "/" +:+ roomName +:+ "/"]> labels in
  let labels := <["m1k1o.neko_rooms.canary" := labelCanary]> labels in
  let labels := <["m1k1o.neko_rooms.epr.min" := Sprintf_d (EprPorts.Min epr)]> labels in
  let labels := <["m1k1o.neko_rooms.epr.max" := Sprintf_d (EprPorts.Max epr)]> labels in
  let labels := <["traefik.enable" := "true"]> labels in
  let labels := <["traefik.http.services." +:+ containerName +:+ "-frontend.loadbalancer.server.port"
    := Sprintf_d frontendPort]> labels in
  let labels := <["traefik.http.routers." +:+ containerName +:+ ".entrypoints"
    := config.TraefikEntrypoint cfg]> labels in
  let labels := <["traefik.http.routers." +:+ containerName +:+ ".rule"
    := "Host(`" +:+ config.TraefikDomain cfg +:+ "`) && PathPrefix(`/" +:+ roomName +:+ "`)"]> labels in
  let labels := <["traefik.http.middlewares." +:+ containerName +:+ "-rdr.redirectregex.regex"
    := "/" +:+ roomName +:+ "$$"]> labels in
  let labels := <["traefik.http.middlewares." +:+ containerName +:+ "-rdr.redirectregex.replacement"
    := "/" +:+ roomName +:+ "/"]> labels in
  let labels := <["traefik.http.middlewares." +:+ containerName +:+ "-prf.stripprefix.prefixes"
    := "/" +:+ roomName +:+ "/"]> labels in
  let labels := <["traefik.http.routers." +:+ containerName +:+ ".middlewares"
    := containerName +:+ "-rdr," +:+ containerName +:+ "-prf"]> labels in
  if bool_decide (config.TraefikCertresolver cfg <> "") then
    let labels := <["traefik.http.routers." +:+ containerName +:+ ".tls" := "true"]> labels in
    <["traefik.http.routers." +:+ containerName +:+ ".tls.certresolver"
      := config.TraefikCertresolver cfg]> labels
  else labels.

(** The three variables [Create] puts in front of the settings' own. *)
Definition baseEnv (manager : RoomManagerCtx) (epr : EprPorts.t) : list string :=
  [ "NEKO_BIND=" +:+ Sprintf_d frontendPort;
    "NEKO_EPR=" +:+ Sprintf_d (EprPorts.Min epr) +:+ "-" +:+ Sprintf_d (EprPorts.Max epr);
    "NEKO_NAT1TO1=" +:+ Join (config.NAT1To1IPs (config manager)) "," ].

Definition hostConfigOf (portBindings : gmap string (list PortBinding)) : HostConfig :=
  {| PortBindings := portBindings;
     LogConfigType := "json-file";
     RestartPolicyName := "always";
     CapAdd := ["SYS_ADMIN"];
     ShmSize := 20000000000 |}.

Definition networkingConfigOf (manager : RoomManagerCtx) : NetworkingConfig :=
  {| EndpointsConfig := {[config.TraefikNetwork (config manager)]} |}.

(** Membership check, then the engine primitive: the shape shared by
    [Start], [Stop] and [Restart]. *)
Definition Start (manager : RoomManagerCtx) (id : string) (e : Engine.t)
  : Engine.t * option error :=
  match inspectContainer id e with
  | Err err => (e, Some err)
  | Ok _ => Engine.ContainerStart id e
  end.

Definition Stop (manager : RoomManagerCtx) (id : string) (e : Engine.t)
  : Engine.t * option error :=
  match inspectContainer id e with
  | Err err => (e, Some err)
  | Ok _ => Engine.ContainerStop id e
  end.

Definition Restart (manager : RoomManagerCtx) (id : string) (e : Engine.t)
  : Engine.t * option error :=
  match inspectContainer id e with
  | Err err => (e, Some err)
  | Ok _ => Engine.ContainerRestart id e
  end.

Definition Remove (manager : RoomManagerCtx) (id : string) (e : Engine.t)
  : Engine.t * option error :=
  match inspectContainer id e with
  | Err err => (e, Some err)
  | Ok _ =>
      match Engine.ContainerStop id e with
      | (e1, Some err) => (e1, Some err)
      | (e1, None) => Engine.ContainerRemove id e1
      end
  end.

(** *** A small deployment used to run the definitions

    The window is the one of the documentation's case study, ports
    59000 to 59009. *)

Definition demoManager : RoomManagerCtx :=
  {| config := {| config.TraefikDomain := "neko.example.org";
                  config.TraefikEntrypoint := "web";
                  config.TraefikCertresolver := "";
                  config.TraefikNetwork := "traefik";
                  config.NAT1To1IPs := ["10.0.0.1"; "10.0.0.2"];
                  config.EprMin := 59000;
                  config.EprMax := 59009 |} |}.

Definition demoManagerTLS : RoomManagerCtx :=
  {| config := {| config.TraefikDomain := "neko.example.org";
                  config.TraefikEntrypoint := "websecure";
                  config.TraefikCertresolver := "le";
                  config.TraefikNetwork := "traefik";
                  config.NAT1To1IPs := [];
                  config.EprMin := 59000;
                  config.EprMax := 59009 |} |}.

Definition demoFreshID (inv : list Container.t) : string :=
  "c" +:+ Sprintf_d (Z.of_nat (List.length inv)).

(** An engine with no workload that refuses nothing. *)
Definition emptyEngine : Engine.t :=
  {| Engine.inventory := []; Engine.fault := fun _ => None;
     Engine.freshID := demoFreshID; Engine.clock := 0; Engine.journal := [] |}.


Definition engineWith (inv : list Container.t) : Engine.t :=
  {| Engine.inventory := inv; Engine.fault := fun _ => None;
     Engine.freshID := demoFreshID; Engine.clock := 0; Engine.journal := [] |}.

(** A running workload with the given id and labels. *)
Definition demoContainer (id : string) (labels : gmap string string) : Container.t :=
  {| Container.ID := id; Container.Name := id;
     Container.State := "running"; Container.Status := "Up";
     Container.Created := 0;
     Container.Config :=
       {| Hostname := id; Domainname := id; cfgExposedPorts := ∅;
          cfgEnv := ["NEKO_SCREEN=1280x720@30"]; cfgImage := nekoImage;
          cfgLabels := labels |};
     Container.Host := hostConfigOf ∅;
     Container.Networking := networkingConfigOf demoManager |}.

(** Room [a] leases 59000-59004 and room [b] leases 59005-59009. *)
Definition roomA : Container.t :=
  demoContainer "r1" (roomLabels demoManager "a" (EprPorts.mk 59000 59004)).
Definition roomB : Container.t :=
  demoContainer "r2" (roomLabels demoManager "b" (EprPorts.mk 59005 59009)).

(** A workload of another system on the same engine: it carries name, url
    and range labels of the naming scheme but not the canary. *)
Definition stranger : Container.t :=
  demoContainer "x1"
    (delete "m1k1o.neko_rooms.canary"
       (roomLabels demoManager "intruder" (EprPorts.mk 59005 59009))).

(** A canary-marked workload whose lower bound does not parse. *)
Definition damaged : Container.t :=
  demoContainer "r3"
    (<["m1k1o.neko_rooms.epr.min" := "59k"]>
       (roomLabels demoManager "c" (EprPorts.mk 59005 59009))).

(** The entry [List] reports for room [a]. *)
Definition entryA : RoomEntry.t :=
  {| RoomEntry.ID := "r1"; RoomEntry.URL := "http://neko.example.org/a/";
     RoomEntry.Name := "a"; RoomEntry.MaxConnections := 5;
     RoomEntry.Image := "m1k1o/neko:latest"; RoomEntry.Running := true;
     RoomEntry.Status := "Up"; RoomEntry.Created := 0 |}.

(** Ports as 16-bit unsigned numbers. *)
Definition port16 : IntType :=
  {| intMin := 0; intMax := 65535; intBounds := conj (Z.le_refl 0) eq_refl |}.

(** A canary-marked workload whose labels give the whole of the 16-bit
    port space, 0 to 65535. *)
Definition fullRange : Container.t :=
  demoContainer "r5" (roomLabels demoManager "e" (EprPorts.mk 0 65535)).

(** A deployment whose window, 8079 to 8088, contains the control port. *)
Definition demoManager8080 : RoomManagerCtx :=
  {| config := {| config.TraefikDomain := "neko.example.org";
                  config.TraefikEntrypoint := "web";
                  config.TraefikCertresolver := "";
                  config.TraefikNetwork := "traefik";
                  config.NAT1To1IPs := [];
                  config.EprMin := 8079;
                  config.EprMax := 8088 |} |}.

Definition demoSettings (name : string) (n : Z) : RoomSettings.t unit :=
  {| RoomSettings.Name := name; RoomSettings.MaxConnections := n; RoomSettings.Opts := tt |}.

Definition demoToEnv (settings : RoomSettings.t unit) : list string :=
  ["NEKO_SCREEN=1280x720@30"].

Definition demoFromEnv (opts : unit) (env : list string) : unit * option error :=
  (opts, None).

Definition demoNewUID (n : Z) : result string := Ok "generated".

(** The workloads of [e'] are those of [e] as far as ids and
    configurations go, and the leases read from both are the same. *)
Definition sameWorkloads (e e' : Engine.t) : Prop :=
  map Container.ID (Engine.inventory e') = map Container.ID (Engine.inventory e) /\
  map Container.Config (Engine.inventory e')
  = map Container.Config (Engine.inventory e) /\
  getUsedPorts e' = getUsedPorts e.

Global Instance Call_eq_dec : EqDecision Engine.Call.
Proof. solve_decision. Defined.

(** An engine holding [inv] that refuses exactly the request [call]. *)
Definition refusing (call : Engine.Call) (inv : list Container.t) : Engine.t :=
  {| Engine.inventory := inv;
     Engine.fault := fun c =>
       if bool_decide (c = call) then Some (EngineError "refused") else None;
     Engine.freshID := demoFreshID; Engine.clock := 0; Engine.journal := [] |}.

(** A canary-marked workload that has lost its url label. *)
Definition noURL : Container.t :=
  demoContainer "r4"
    (delete "m1k1o.neko_rooms.url"
       (roomLabels demoManager "d" (EprPorts.mk 59005 59009))).

Definition failingNewUID (n : Z) : result string := Err (Errorf "no identifier").

Section Settings.

(** Modelled from the spec: the settings schema ([ToEnv], [FromEnv]) and
    the identifier generator ([utils.NewUID]) are declared outside
    manager.go.  The workload options are an open set that round-trips
    through environment variables: [ToEnv] renders the settings as
    variables, [FromEnv] fills the options from the environment and leaves
    the name and the number of connections alone, and [zeroOptions] is the
    zero value of the options. *)
Variable Options : Type.
Variable zeroOptions : Options.
Variable ToEnv : RoomSettings.t Options -> list string.
Variable FromEnv : Options -> list string -> Options * option error.
Variable NewUID : Z -> result string.
Context `{ty : IntType}.

Definition resolveName (settings : RoomSettings.t Options) : result string :=
  if bool_decide (RoomSettings.Name settings = "") then NewUID 32
  else Ok (RoomSettings.Name settings).

Definition containerConfigOf (manager : RoomManagerCtx)
    (settings : RoomSettings.t Options) (roomName : string) (epr : EprPorts.t)
  : ContainerConfig :=
  {| Hostname := containerPrefix +:+ roomName;
     Domainname := containerPrefix +:+ roomName;
     cfgExposedPorts := (publishPorts epr).2;
     cfgEnv := baseEnv manager epr ++ ToEnv settings;
     cfgImage := nekoImage;
     cfgLabels := roomLabels manager roomName epr |}.

Definition Create (manager : RoomManagerCtx) (settings : RoomSettings.t Options)
    (e : Engine.t) : Engine.t * result string :=
  match resolveName settings with
  | Err err => (e, Err err)
  | Ok roomName =>
      match allocatePorts manager e (RoomSettings.MaxConnections settings) with
      | Err err => (e, Err err)
      | Ok epr =>
          match Engine.ContainerCreate
                  (containerConfigOf manager settings roomName epr)
                  (hostConfigOf (publishPorts epr).1)
                  (networkingConfigOf manager)
                  (containerPrefix +:+ roomName) e with
          | (e1, Err err) => (e1, Err err)
          | (e1, Ok id) =>
              match Engine.ContainerStart id e1 with
              | (e2, Some err) => (e2, Err err)
              | (e2, None) => (e2, Ok id)
              end
          end
      end
  end.

Definition Get (manager : RoomManagerCtx) (id : string) (e : Engine.t)
  : option (RoomSettings.t Options) * option error :=
  match inspectContainer id e with
  | Err err => (None, Some err)
  | Ok container =>
      match Container.Labels container !! "m1k1o.neko_rooms.name" with
      | None => (None, Some (Errorf "Damaged container labels: name not found."))
      | Some roomName =>
          match getEprFromLabels (Container.Labels container) with
          | Err err => (None, Some err)
          | Ok epr =>
              let settings :=
                {| RoomSettings.Name := roomName;
                   RoomSettings.MaxConnections :=
                     GoInt.add (GoInt.sub (EprPorts.Max epr) (EprPorts.Min epr)) 1;
                   RoomSettings.Opts := zeroOptions |} in
              let '(opts, err) := FromEnv (RoomSettings.Opts settings) (Container.Env container) in
              (Some {| RoomSettings.Name := RoomSettings.Name settings;
                       RoomSettings.MaxConnections := RoomSettings.MaxConnections settings;
                       RoomSettings.Opts := opts |}, err)
          end
      end
  end.


(** ** Arithmetic in the integer type *)

Lemma wrap_inRange (z : Z) : GoInt.inRange z -> GoInt.wrap z = z.
Proof.
  unfold GoInt.inRange, GoInt.wrap. intros Hz.
  rewrite Z.mod_small by lia. lia.
Qed.

Lemma wrap_is_inRange (z : Z) : GoInt.inRange (GoInt.wrap z).
Proof.
  unfold GoInt.inRange, GoInt.wrap. destruct intBounds as [Hlo Hhi].
  assert (0 < intMax - intMin + 1) as Hpos by lia.
  pose proof (Z.mod_pos_bound (z - intMin) (intMax - intMin + 1) Hpos). lia.
Qed.

(** [a - b + 1], evaluated as Go does, is the exact number wrapped once. *)
Lemma add_sub_one (a b : Z) :
  GoInt.add (GoInt.sub a b) 1 = GoInt.wrap (a - b + 1).
Proof.
  unfold GoInt.add, GoInt.sub, GoInt.wrap. f_equal.
  replace (intMin + (a - b - intMin) mod (intMax - intMin + 1) + 1 - intMin)
    with ((a - b - intMin) mod (intMax - intMin + 1) + 1) by lia.
  replace (a - b + 1 - intMin) with ((a - b - intMin) + 1) by lia.
  apply Zplus_mod_idemp_l.
Qed.

Lemma add_sub_one_exact (a b : Z) :
  GoInt.inRange (a - b + 1) -> GoInt.add (GoInt.sub a b) 1 = a - b + 1.
Proof. intros Hz. by rewrite add_sub_one, wrap_inRange. Qed.

(** The whole of the type, from 0 to its greatest value, has one value too
    many to be counted in the type: the count comes out as the least
    value. *)
Lemma add_sub_one_overflow :
  GoInt.add (GoInt.sub intMax 0) 1 = intMin /\ intMin <> intMax - 0 + 1.
Proof.
  destruct intBounds as [Hlo Hhi]. split; [| lia].
  rewrite add_sub_one. unfold GoInt.wrap.
  replace (intMax - 0 + 1 - intMin) with (1 * (intMax - intMin + 1)) by lia.
  rewrite Z.mod_mul by lia. lia.
Qed.

(** ** Decimal printing and parsing are inverse *)

Lemma digitOf_pretty_N_char (d : N) :
  (d < 10)%N -> digitOf (pretty_N_char d) = Some (Z.of_N d).
Proof.
  intros Hd.
  assert (d = 0 \/ d = 1 \/ d = 2 \/ d = 3 \/ d = 4 \/ d = 5 \/ d = 6
          \/ d = 7 \/ d = 8 \/ d = 9)%N as Hcases by lia.
  repeat (destruct Hcases as [-> | Hcases]; [reflexivity |]).
  subst d. reflexivity.
Qed.

(** Parsing the digits that [pretty_N_go] puts in front of [s] shifts the
    accumulator by that many decimal places and adds the number. *)
Lemma parseDigits_pretty_N_go (x : N) :
  forall s : string, exists k : Z, 0 <= k /\
    forall acc : Z,
      parseDigits (pretty_N_go x s) acc
      = parseDigits s (acc * 10 ^ k + Z.of_N x).
Proof.
  induction (N.lt_wf_0 x) as [x _ IH]. intros s.
  destruct (N.eq_dec x 0) as [-> | Hx].
  - exists 0. split; [lia |]. intros acc.
    rewrite pretty_N_go_0. f_equal. lia.
  - assert (0 < x)%N as Hpos by lia.
    rewrite pretty_N_go_step by exact Hpos.
    destruct (IH (x `div` 10)%N (N.div_lt x 10 Hpos eq_refl)
                (String (pretty_N_char (x `mod` 10)) s)) as (k & Hk & Hparse).
    exists (k + 1). split; [lia |]. intros acc.
    rewrite Hparse. simpl.
    rewrite digitOf_pretty_N_char by (apply N.mod_lt; lia).
    f_equal.
    rewrite Z.pow_add_r, Z.pow_1_r by lia.
    rewrite N2Z.inj_div, N2Z.inj_mod. change (Z.of_N 10) with 10.
    pose proof (Z.div_mod (Z.of_N x) 10 ltac:(lia)) as Hdm.
    set (P := 10 ^ k). lia.
Qed.

Lemma pretty_N_go_nonempty (x : N) (s : string) :
  (0 < x)%N -> pretty_N_go x s <> "".
Proof.
  revert s. induction (N.lt_wf_0 x) as [x _ IH]. intros s Hpos.
  rewrite pretty_N_go_step by exact Hpos.
  destruct (N.eq_dec (x `div` 10) 0) as [-> | Hq].
  - rewrite pretty_N_go_0. discriminate.
  - apply IH; [apply N.div_lt; lia | by apply N.neq_0_lt_0].
Qed.

Lemma parseDecimal_pretty_N (x : N) :
  parseDecimal (pretty x) = Some (Z.of_N x).
Proof.
  unfold pretty, pretty_N. case_decide as Hx.
  - subst x. reflexivity.
  - assert (0 < x)%N as Hpos by lia.
    pose proof (pretty_N_go_nonempty x "" Hpos) as Hne.
    destruct (parseDigits_pretty_N_go x "") as (k & _ & Hparse).
    unfold parseDecimal.
    destruct (pretty_N_go x "") eqn:Hgo; [congruence |].
    rewrite Hparse. simpl. reflexivity.
Qed.

(** [parseDecimal] reads back what [Sprintf_d] printed, for every integer
    that is not negative. *)
Lemma parseDecimal_Sprintf_d (n : Z) :
  0 <= n -> parseDecimal (Sprintf_d n) = Some n.
Proof.
  intros Hn. unfold Sprintf_d.
  destruct n as [| p | p]; [reflexivity | | lia].
  change (pretty (Z.pos p)) with (pretty (N.pos p)).
  rewrite parseDecimal_pretty_N. reflexivity.
Qed.

Lemma Sprintf_d_inj (a b : Z) : Sprintf_d a = Sprintf_d b -> a = b.
Proof. unfold Sprintf_d. apply pretty_Z_inj. Qed.

(** ** Properties of the port allocator *)

Global Instance byStart_trans : Transitive byStart.
Proof. intros a b c. unfold byStart. lia. Qed.

Global Instance byStart_total : Total byStart.
Proof. intros a b. unfold byStart. lia. Qed.

Lemma disjoint_below (s size : Z) (r : EprPorts.t) :
  s + size - 1 < EprPorts.Min r ->
  EprPorts.disjoint (EprPorts.mk s (s + size - 1)) r.
Proof. intros Hlt p [_ Hp] [Hr _]. simpl in *. lia. Qed.

Lemma disjoint_above (s size : Z) (r : EprPorts.t) :
  EprPorts.Max r < s ->
  EprPorts.disjoint (EprPorts.mk s (s + size - 1)) r.
Proof. intros Hlt p [Hp _] [_ Hr]. simpl in *. lia. Qed.

(** A block that avoids a well-formed lease lies wholly on one side of it. *)
Lemma disjoint_sides (s size : Z) (r : EprPorts.t) :
  0 < size -> EprPorts.wf r ->
  EprPorts.disjoint (EprPorts.mk s (s + size - 1)) r ->
  s + size - 1 < EprPorts.Min r \/ EprPorts.Max r < s.
Proof.
  intros Hsize Hwf Hdis. unfold EprPorts.wf in Hwf.
  destruct (Z_lt_dec (s + size - 1) (EprPorts.Min r)) as [| Hge]; [by left |].
  destruct (Z_lt_dec (EprPorts.Max r) s) as [| Hle]; [by right |].
  exfalso. apply (Hdis (Z.max s (EprPorts.Min r))); split; simpl; lia.
Qed.

Lemma scan_ge (size : Z) (leased : list EprPorts.t) :
  forall cur, cur <= scan size cur leased.
Proof.
  induction leased as [| r rest IH]; intros cur; simpl; [lia |].
  destruct (size <=? EprPorts.Min r - cur); [lia |].
  specialize (IH (Z.max cur (EprPorts.Max r + 1))). lia.
Qed.

(** The block the scan stops at avoids every lease of a sorted list. *)
Lemma scan_sound (size : Z) (leased : list EprPorts.t) :
  StronglySorted byStart leased ->
  forall cur,
    Forall (EprPorts.disjoint
              (EprPorts.mk (scan size cur leased) (scan size cur leased + size - 1)))
           leased.
Proof.
  induction 1 as [| r rest Hsorted IH Hhd]; intros cur; simpl; [constructor |].
  destruct (size <=? EprPorts.Min r - cur) eqn:Hgap.
  - apply Z.leb_le in Hgap. constructor.
    + apply disjoint_below. lia.
    + eapply Forall_impl; [exact Hhd |]. intros r' Hr'.
      apply disjoint_below. unfold byStart in Hr'. lia.
  - constructor; [| apply IH].
    apply disjoint_above.
    pose proof (scan_ge size rest (Z.max cur (EprPorts.Max r + 1))). lia.
Qed.

(** No free block starts below the one the scan stops at. *)
Lemma scan_least (size : Z) (leased : list EprPorts.t) :
  0 < size -> Forall EprPorts.wf leased ->
  forall cur s, cur <= s ->
    Forall (EprPorts.disjoint (EprPorts.mk s (s + size - 1))) leased ->
    scan size cur leased <= s.
Proof.
  intros Hsize Hwf. induction Hwf as [| r rest Hr Hrest IH]; intros cur s Hcur Hfree;
    simpl; [lia |].
  apply Forall_cons in Hfree as [Hfree_r Hfree_rest].
  destruct (size <=? EprPorts.Min r - cur) eqn:Hgap; [lia |].
  apply Z.leb_gt in Hgap.
  apply IH; [| exact Hfree_rest].
  destruct (disjoint_sides s size r Hsize Hr Hfree_r); lia.
Qed.

Lemma Forall_merge_sort (P : EprPorts.t -> Prop) (l : list EprPorts.t) :
  Forall P (merge_sort byStart l) <-> Forall P l.
Proof. by rewrite merge_sort_Permutation. Qed.

(** What [allocate] answers for a positive size. *)
Lemma allocate_cases (size : Z) (w : EprPorts.t) (existing : list EprPorts.t) :
  0 < size ->
  let s0 := scan size (EprPorts.Min w) (merge_sort byStart existing) in
  (s0 + size - 1 <= EprPorts.Max w /\
   allocate size w existing = Ok (EprPorts.mk s0 (s0 + size - 1)))
  \/ (EprPorts.Max w < s0 + size - 1 /\
      allocate size w existing = Err PortExhaustionError).
Proof.
  intros Hsize s0. unfold allocate. fold s0.
  destruct (size <=? 0) eqn:Hneg; [apply Z.leb_le in Hneg; lia |].
  destruct (s0 + size - 1 <=? EprPorts.Max w) eqn:Hfit.
  - left. apply Z.leb_le in Hfit. done.
  - right. apply Z.leb_gt in Hfit. done.
Qed.

Lemma allocate_sound (size : Z) (w : EprPorts.t) (existing : list EprPorts.t)
    (r : EprPorts.t) :
  0 < size -> allocate size w existing = Ok r ->
  EprPorts.Max r = EprPorts.Min r + size - 1 /\
  freeBlock size w existing (EprPorts.Min r).
Proof.
  intros Hsize Halloc.
  destruct (allocate_cases size w existing Hsize) as [[Hfit Heq] | [_ Heq]];
    rewrite Heq in Halloc; [| discriminate].
  injection Halloc as <-. simpl. split; [done |].
  split; [apply scan_ge |]. split; [done |].
  apply Forall_merge_sort, scan_sound, StronglySorted_merge_sort; apply _.
Qed.

Lemma allocate_least (size : Z) (w : EprPorts.t) (existing : list EprPorts.t)
    (r : EprPorts.t) (s : Z) :
  0 < size -> Forall EprPorts.wf existing ->
  allocate size w existing = Ok r ->
  freeBlock size w existing s -> EprPorts.Min r <= s.
Proof.
  intros Hsize Hwf Halloc (Hlo & _ & Hfree).
  destruct (allocate_cases size w existing Hsize) as [[Hfit Heq] | [_ Heq]];
    rewrite Heq in Halloc; [| discriminate].
  injection Halloc as <-. simpl.
  apply scan_least; [done | by apply Forall_merge_sort | done
                    | by apply Forall_merge_sort].
Qed.

Lemma allocate_complete (size : Z) (w : EprPorts.t) (existing : list EprPorts.t)
    (s : Z) :
  0 < size -> Forall EprPorts.wf existing ->
  freeBlock size w existing s ->
  exists r, allocate size w existing = Ok r.
Proof.
  intros Hsize Hwf (Hlo & Hhi & Hfree).
  destruct (allocate_cases size w existing Hsize) as [[_ Heq] | [Hover _]];
    [eauto |].
  exfalso.
  assert (scan size (EprPorts.Min w) (merge_sort byStart existing) <= s); [| lia].
  apply scan_least; [done | by apply Forall_merge_sort | done
                    | by apply Forall_merge_sort].
Qed.

Lemma freeBlock_same_leases (size : Z) (w : EprPorts.t)
    (existing existing' : list EprPorts.t) (s : Z) :
  (forall r, r ∈ existing' <-> r ∈ existing) ->
  freeBlock size w existing s -> freeBlock size w existing' s.
Proof.
  intros Hsame (Hlo & Hhi & Hfree). split; [done |]. split; [done |].
  rewrite Forall_forall in Hfree |- *. intros r Hr. apply Hfree, Hsame, Hr.
Qed.

(** The answer of [allocate] depends on the set of leases only, not on the
    order or the multiplicity in which they are listed. *)
Lemma allocate_same_leases (size : Z) (w : EprPorts.t)
    (existing existing' : list EprPorts.t) :
  0 < size -> Forall EprPorts.wf existing ->
  (forall r, r ∈ existing' <-> r ∈ existing) ->
  allocate size w existing' = allocate size w existing.
Proof.
  intros Hsize Hwf Hsame.
  assert (Forall EprPorts.wf existing') as Hwf'.
  { rewrite Forall_forall in Hwf |- *. intros r Hr. apply Hwf, Hsame, Hr. }
  assert (forall r, r ∈ existing <-> r ∈ existing') as Hsame' by (intros; by rewrite Hsame).
  destruct (allocate_cases size w existing Hsize) as [[Hfit Heq] | [Hover Heq]];
    destruct (allocate_cases size w existing' Hsize) as [[Hfit' Heq'] | [Hover' Heq']];
    rewrite Heq, Heq'; try done.
  - f_equal.
    pose proof (allocate_sound _ _ _ _ Hsize Heq) as [_ Hfree].
    pose proof (allocate_sound _ _ _ _ Hsize Heq') as [_ Hfree'].
    pose proof (allocate_least _ _ _ _ _ Hsize Hwf Heq
                  (freeBlock_same_leases _ _ _ _ _ Hsame' Hfree')) as Hle.
    pose proof (allocate_least _ _ _ _ _ Hsize Hwf' Heq'
                  (freeBlock_same_leases _ _ _ _ _ Hsame Hfree)) as Hle'.
    simpl in Hle, Hle'. f_equal; lia.
  - exfalso.
    pose proof (allocate_sound _ _ _ _ Hsize Heq) as [_ Hfree].
    destruct (allocate_complete size w existing' _ Hsize Hwf'
                (freeBlock_same_leases _ _ _ _ _ Hsame Hfree)) as [r Hr].
    congruence.
  - exfalso.
    pose proof (allocate_sound _ _ _ _ Hsize Heq') as [_ Hfree'].
    destruct (allocate_complete size w existing _ Hsize Hwf
                (freeBlock_same_leases _ _ _ _ _ Hsame' Hfree')) as [r Hr].
    congruence.
Qed.

(** C1: the port allocation of [Create].  Let [existing] be the leases
    read from the inventory and [size] a positive requested size.  Every
    range [allocatePorts] returns is contiguous with exactly [size] ports,
    lies inside the configured window and shares no port with an existing
    lease.  When the existing leases are well formed ([min <= max]), a
    range is returned for every size that fits in the window, that is,
    whenever some block of [size] free ports exists in it; the range
    returned is the free block with the lowest start (first fit); and the
    answer is determined by the set of existing leases. *)
Theorem allocatePorts_first_fit (manager : RoomManagerCtx) (e : Engine.t)
    (existing : list EprPorts.t) (size : Z) :
  getUsedPorts e = Ok existing -> 0 < size ->
  (forall r, allocatePorts manager e size = Ok r ->
     EprPorts.size r = size /\
     EprPorts.Min (window manager) <= EprPorts.Min r /\
     EprPorts.Max r <= EprPorts.Max (window manager) /\
     Forall (EprPorts.disjoint r) existing) /\
  (Forall EprPorts.wf existing ->
     (forall r s, allocatePorts manager e size = Ok r ->
        freeBlock size (window manager) existing s -> EprPorts.Min r <= s) /\
     (forall s, freeBlock size (window manager) existing s ->
        exists r, allocatePorts manager e size = Ok r) /\
     (forall e' existing', getUsedPorts e' = Ok existing' ->
        (forall r, r ∈ existing' <-> r ∈ existing) ->
        allocatePorts manager e' size = allocatePorts manager e size)).
Proof.
  intros Hused Hsize.
  assert (allocatePorts manager e size = allocate size (window manager) existing)
    as Hunfold by (unfold allocatePorts; by rewrite Hused).
  rewrite Hunfold. split.
  - intros r Halloc.
    destruct (allocate_sound _ _ _ _ Hsize Halloc) as (Hmax & Hlo & Hhi & Hfree).
    destruct r as [lo hi]. simpl in *. subst hi.
    unfold EprPorts.size. simpl. repeat split; [lia | done | done | done].
  - intros Hwf. split; [| split].
    + intros r s Halloc Hfree. by eapply allocate_least.
    + intros s Hfree. by eapply allocate_complete.
    + intros e' existing' Hused' Hsame.
      unfold allocatePorts at 1. rewrite Hused'. simpl.
      by apply allocate_same_leases.
Qed.

(** ** Properties of [List] and [Get] *)

Lemma mapM_result_app {A B : Type} (f : A -> result B) (l1 l2 : list A)
    (k1 k2 : list B) :
  mapM f l1 = Ok k1 -> mapM f l2 = Ok k2 -> mapM f (l1 ++ l2) = Ok (k1 ++ k2).
Proof.
  revert k1. induction l1 as [| x l1 IH]; intros k1 H1 H2; simpl in *.
  - injection H1 as <-. done.
  - destruct (f x) as [y |]; simpl in *; [| discriminate].
    destruct (mapM f l1) as [k |]; simpl in *; [| discriminate].
    injection H1 as <-. by rewrite (IH k eq_refl H2).
Qed.

Lemma mapM_result_Forall2 {A B : Type} (f : A -> result B) (l : list A)
    (k : list B) :
  mapM f l = Ok k <-> Forall2 (fun x y => f x = Ok y) l k.
Proof.
  revert k. induction l as [| x l IH]; intros k; simpl.
  - split; [intros [= <-]; constructor | by inversion 1].
  - split.
    + destruct (f x) as [y |] eqn:Hx; simpl; [| discriminate].
      destruct (mapM f l) as [k' |] eqn:Hl; simpl; [| discriminate].
      intros [= <-]. constructor; [done | by apply IH].
    + inversion 1 as [| ? y ? k' Hx Hl]; subst. rewrite Hx. simpl.
      apply IH in Hl. by rewrite Hl.
Qed.

(** The loop of [List] is the entry-wise decoding of the containers. *)
Lemma listLoop_mapM (containers : list Container.t) :
  forall acc,
    listLoop containers acc
    = match mapM entryOf containers with
      | Ok entries => Ok (acc ++ entries)
      | Err err => Err err
      end.
Proof.
  induction containers as [| c rest IH]; intros acc; simpl.
  - by rewrite app_nil_r.
  - destruct (entryOf c) as [entry | err]; simpl; [| done].
    rewrite IH. destruct (mapM entryOf rest); simpl; [| done].
    by rewrite <- app_assoc.
Qed.

Lemma getEprFromLabels_Ok (labels : gmap string string) (epr : EprPorts.t) :
  getEprFromLabels labels = Ok epr <->
  exists minStr maxStr,
    labels !! "m1k1o.neko_rooms.epr.min" = Some minStr /\
    labels !! "m1k1o.neko_rooms.epr.max" = Some maxStr /\
    parseDecimal minStr = Some (EprPorts.Min epr) /\
    parseDecimal maxStr = Some (EprPorts.Max epr).
Proof.
  unfold getEprFromLabels. split.
  - destruct (labels !! "m1k1o.neko_rooms.epr.min") as [minStr |]; simpl; [| done].
    destruct (parseDecimal minStr) as [lo |] eqn:Hlo; simpl; [| done].
    destruct (labels !! "m1k1o.neko_rooms.epr.max") as [maxStr |]; simpl; [| done].
    destruct (parseDecimal maxStr) as [hi |] eqn:Hhi; simpl; [| done].
    intros [= <-]. by exists minStr, maxStr.
  - intros (minStr & maxStr & -> & -> & Hlo & Hhi). simpl.
    rewrite Hlo. simpl. rewrite Hhi. simpl. by destruct epr.
Qed.

(** [entryOf] succeeds exactly on decodable metadata. *)
Lemma entryOf_decodable (c : Container.t) :
  (exists entry, entryOf c = Ok entry) <-> decodable (Container.Labels c).
Proof.
  unfold entryOf, decodable. split.
  - intros [entry Hentry].
    destruct (Container.Labels c !! "m1k1o.neko_rooms.name"); simpl in *; [| done].
    destruct (Container.Labels c !! "m1k1o.neko_rooms.url"); simpl in *; [| done].
    destruct (getEprFromLabels (Container.Labels c)) as [epr |] eqn:Hepr;
      simpl in *; [| done].
    apply getEprFromLabels_Ok in Hepr as (minStr & maxStr & ? & ? & ? & ?).
    repeat split; eauto.
  - intros ([name ->] & [url ->] & (minStr & Hmin & [lo Hlo]) & (maxStr & Hmax & [hi Hhi])).
    simpl.
    assert (getEprFromLabels (Container.Labels c) = Ok (EprPorts.mk lo hi)) as ->.
    { apply getEprFromLabels_Ok. by exists minStr, maxStr. }
    simpl. eauto.
Qed.

Lemma entryOf_ID (c : Container.t) (entry : RoomEntry.t) :
  entryOf c = Ok entry -> RoomEntry.ID entry = Container.ID c.
Proof.
  unfold entryOf.
  destruct (Container.Labels c !! "m1k1o.neko_rooms.name"); simpl; [| done].
  destruct (Container.Labels c !! "m1k1o.neko_rooms.url"); simpl; [| done].
  destruct (getEprFromLabels (Container.Labels c)); simpl; [| done].
  by intros [= <-].
Qed.

Lemma entryOf_MaxConnections (c : Container.t) (entry : RoomEntry.t) :
  entryOf c = Ok entry ->
  exists epr, getEprFromLabels (Container.Labels c) = Ok epr /\
    RoomEntry.MaxConnections entry
    = GoInt.add (GoInt.sub (EprPorts.Max epr) (EprPorts.Min epr)) 1.
Proof.
  unfold entryOf.
  destruct (Container.Labels c !! "m1k1o.neko_rooms.name"); simpl; [| done].
  destruct (Container.Labels c !! "m1k1o.neko_rooms.url"); simpl; [| done].
  destruct (getEprFromLabels (Container.Labels c)) as [epr |]; simpl; [| done].
  intros [= <-]. by exists epr.
Qed.

Lemma List_mapM (manager : RoomManagerCtx) (e : Engine.t)
    (containers : list Container.t) :
  listContainers e = Ok containers ->
  List manager e = mapM entryOf containers.
Proof.
  intros Hlist. unfold List. rewrite Hlist. simpl.
  rewrite listLoop_mapM. by destruct (mapM entryOf containers).
Qed.

Lemma listContainers_Ok (e : Engine.t) (containers : list Container.t) :
  listContainers e = Ok containers ->
  containers = filter (fun c => isRoom c = true) (Engine.inventory e).
Proof.
  unfold listContainers, Engine.ContainerList.
  destruct (Engine.fault e Engine.CallList); simpl; [done |]. by intros [= <-].
Qed.

(** C2: [List] returns every room or fails entirely.  Given the
    canary-marked workloads of the inventory, if the metadata of one of them
    does not decode then [List] returns an error, which carries no
    entries; if all decode, [List] returns one entry for each of them,
    in order. *)
Theorem List_all_or_nothing (manager : RoomManagerCtx) (e : Engine.t)
    (containers : list Container.t) :
  listContainers e = Ok containers ->
  ((exists c, c ∈ containers /\ ~ decodable (Container.Labels c)) ->
     exists err, List manager e = Err err) /\
  ((forall c, c ∈ containers -> decodable (Container.Labels c)) ->
     exists entries, List manager e = Ok entries /\
       Forall2 (fun c entry => entryOf c = Ok entry) containers entries /\
       map RoomEntry.ID entries = map Container.ID containers).
Proof.
  intros Hlist. rewrite (List_mapM manager e containers Hlist). split.
  - intros (c & Hin & Hbad).
    destruct (mapM entryOf containers) as [entries | err] eqn:Hmap; [| eauto].
    exfalso. apply Hbad, entryOf_decodable.
    apply mapM_result_Forall2 in Hmap.
    apply list_elem_of_lookup in Hin as [i Hi].
    destruct (Forall2_lookup_l _ _ _ _ _ Hmap Hi) as (entry & _ & Hentry).
    eauto.
  - intros Hall.
    assert (exists entries, Forall2 (fun c entry => entryOf c = Ok entry) containers entries)
      as [entries Hentries].
    { clear Hlist. induction containers as [| c rest IH]; [by exists [] |].
      destruct (proj2 (entryOf_decodable c)) as [entry Hentry];
        [apply Hall; by left |].
      destruct IH as [entries Hentries]; [intros c' Hc'; apply Hall; by right |].
      exists (entry :: entries). by constructor. }
    exists entries. split; [by apply mapM_result_Forall2 |]. split; [done |].
    clear Hlist Hall. induction Hentries as [| c entry rest entries Hc _ IH]; [done |].
    simpl. by rewrite (entryOf_ID c entry Hc), IH.
Qed.

(** C3: [List] never returns an entry for a workload without the canary
    marker.  Every entry of a successful [List] is the decoding of a
    workload of the inventory whose canary key holds the marker value, and
    the entries match the canary-marked workloads one for one, so that a
    workload without the marker contributes nothing whatever its other
    labels are. *)
Theorem List_only_canary (manager : RoomManagerCtx) (e : Engine.t)
    (entries : list RoomEntry.t) :
  List manager e = Ok entries ->
  (forall entry, entry ∈ entries ->
     exists c, c ∈ Engine.inventory e /\
       Container.Labels c !! "m1k1o.neko_rooms.canary" = Some labelCanary /\
       entryOf c = Ok entry) /\
  Forall2 (fun c entry => entryOf c = Ok entry)
    (filter (fun c => Container.Labels c !! "m1k1o.neko_rooms.canary" = Some labelCanary)
            (Engine.inventory e))
    entries.
Proof.
  intros HList.
  destruct (listContainers e) as [containers | err] eqn:Hlist;
    [| unfold List in HList; rewrite Hlist in HList; discriminate].
  rewrite (List_mapM manager e containers Hlist) in HList.
  apply mapM_result_Forall2 in HList.
  apply listContainers_Ok in Hlist. subst containers.
  assert (filter (fun c => isRoom c = true) (Engine.inventory e)
          = filter (fun c => Container.Labels c !! "m1k1o.neko_rooms.canary"
                             = Some labelCanary) (Engine.inventory e)) as Hfilter.
  { apply list_filter_iff. intros c. unfold isRoom.
    by rewrite bool_decide_eq_true. }
  rewrite Hfilter in HList. split; [| done].
  intros entry Hentry.
  apply list_elem_of_lookup in Hentry as [i Hi].
  destruct (Forall2_lookup_r _ _ _ _ _ HList Hi) as (c & Hc & Hdec).
  apply list_elem_of_lookup_2 in Hc. apply list_elem_of_filter in Hc as [Hcanary Hin].
  by exists c.
Qed.

(** C5, as the code has it: the reported capacity is the size of the
    decoded range, computed in the integer type of the bounds.  When the
    metadata of every canary-marked workload decodes, [List] returns
    entries in which the workload whose range decodes to [min, max] has
    [MaxConnections] equal to [max - min + 1] wrapped into the integer
    type; for a workload that passes inspection, has a name label and
    decodes to [min, max], [Get] returns settings with the same value.
    That value is [max - min + 1] itself whenever this number is a value
    of the type. *)
Theorem MaxConnections_is_range_size (manager : RoomManagerCtx) (e : Engine.t) :
  (forall containers,
     listContainers e = Ok containers ->
     (forall c, c ∈ containers -> decodable (Container.Labels c)) ->
     exists entries,
       List manager e = Ok entries /\
       Forall2 (fun c entry =>
                  exists epr, getEprFromLabels (Container.Labels c) = Ok epr /\
                    RoomEntry.MaxConnections entry
                    = GoInt.wrap (EprPorts.Max epr - EprPorts.Min epr + 1) /\
                    (GoInt.inRange (EprPorts.Max epr - EprPorts.Min epr + 1) ->
                     RoomEntry.MaxConnections entry
                     = EprPorts.Max epr - EprPorts.Min epr + 1))
               containers entries) /\
  (forall id c epr,
     inspectContainer id e = Ok c ->
     is_Some (Container.Labels c !! "m1k1o.neko_rooms.name") ->
     getEprFromLabels (Container.Labels c) = Ok epr ->
     exists settings err,
       Get manager id e = (Some settings, err) /\
       RoomSettings.MaxConnections settings
       = GoInt.wrap (EprPorts.Max epr - EprPorts.Min epr + 1) /\
       (GoInt.inRange (EprPorts.Max epr - EprPorts.Min epr + 1) ->
        RoomSettings.MaxConnections settings
        = EprPorts.Max epr - EprPorts.Min epr + 1)).
Proof.
  split.
  - intros containers Hlist Hall.
    rewrite (List_mapM manager e containers Hlist).
    assert (exists entries,
              Forall2 (fun c entry => entryOf c = Ok entry) containers entries)
      as [entries Hentries].
    { clear Hlist. induction containers as [| c rest IH]; [by exists [] |].
      destruct (proj2 (entryOf_decodable c)) as [entry Hentry];
        [apply Hall; by left |].
      destruct IH as [entries Hentries]; [intros c' Hc'; apply Hall; by right |].
      exists (entry :: entries). by constructor. }
    exists entries. split; [by apply mapM_result_Forall2 |].
    eapply Forall2_impl; [exact Hentries |].
    intros c entry Hentry.
    destruct (entryOf_MaxConnections c entry Hentry) as (epr & Hepr & Hmax).
    exists epr. split; [done |]. rewrite Hmax. split.
    + apply add_sub_one.
    + apply add_sub_one_exact.
  - intros id c epr Hinspect [roomName Hname] Hepr.
    unfold Get. rewrite Hinspect, Hname, Hepr. simpl.
    destruct (FromEnv zeroOptions (Container.Env c)) as [opts err].
    eexists _, err. split; [reflexivity |]. simpl. split.
    + apply add_sub_one.
    + apply add_sub_one_exact.
Qed.

(** ** Properties of the labels written by [Create] *)

Lemma length_append (a b : string) :
  String.length (a +:+ b) = (String.length a + String.length b)%nat.
Proof.
  induction a as [| c a IH]; [done |].
  change (S (String.length (a +:+ b)) = S (String.length a + String.length b)).
  by rewrite IH.
Qed.

Lemma append_inj_r (s a b : string) : a +:+ s = b +:+ s -> a = b.
Proof.
  revert b. induction a as [| c a IH]; intros [| d b] H.
  - done.
  - exfalso. apply (f_equal String.length) in H.
    rewrite !length_append in H. simpl in H. lia.
  - exfalso. apply (f_equal String.length) in H.
    rewrite !length_append in H. simpl in H. lia.
  - change (String c (a +:+ s) = String d (b +:+ s)) in H.
    injection H as -> H. f_equal. by apply IH.
Qed.

(** Two label keys differ: either at a character of their literal prefixes,
    or, behind a common prefix and container name, in their suffixes. *)
Ltac key_ne :=
  let H := fresh "Hkey" in
  intros H;
  first [ by (simpl in H; discriminate H)
        | by (do 2 apply (inj (String.append _)) in H; discriminate H) ].

Ltac lookup_label :=
  unfold roomLabels; cbv zeta; case_bool_decide;
  repeat (rewrite lookup_insert_ne by key_ne);
  first [ apply lookup_insert_eq | apply lookup_empty ].

Lemma roomLabels_name manager roomName epr :
  roomLabels manager roomName epr !! "m1k1o.neko_rooms.name" = Some roomName.
Proof. lookup_label. Qed.

Lemma roomLabels_url manager roomName epr :
  roomLabels manager roomName epr !! "m1k1o.neko_rooms.url"
  = Some (urlProto manager +:+ "://" +:+ config.TraefikDomain (config manager)
          +:+ "/" +:+ roomName +:+ "/").
Proof. lookup_label. Qed.

Lemma roomLabels_canary manager roomName epr :
  roomLabels manager roomName epr !! "m1k1o.neko_rooms.canary" = Some labelCanary.
Proof. lookup_label. Qed.

Lemma roomLabels_epr_min manager roomName epr :
  roomLabels manager roomName epr !! "m1k1o.neko_rooms.epr.min"
  = Some (Sprintf_d (EprPorts.Min epr)).
Proof. lookup_label. Qed.

Lemma roomLabels_epr_max manager roomName epr :
  roomLabels manager roomName epr !! "m1k1o.neko_rooms.epr.max"
  = Some (Sprintf_d (EprPorts.Max epr)).
Proof. lookup_label. Qed.

Lemma roomLabels_tls manager roomName epr :
  roomLabels manager roomName epr
    !! ("traefik.http.routers." +:+ (containerPrefix +:+ roomName) +:+ ".tls")
  = if bool_decide (config.TraefikCertresolver (config manager) <> "")
    then Some "true" else None.
Proof. lookup_label. Qed.

Lemma roomLabels_certresolver manager roomName epr :
  roomLabels manager roomName epr
    !! ("traefik.http.routers." +:+ (containerPrefix +:+ roomName) +:+ ".tls.certresolver")
  = if bool_decide (config.TraefikCertresolver (config manager) <> "")
    then Some (config.TraefikCertresolver (config manager)) else None.
Proof. lookup_label. Qed.

Lemma getEprFromLabels_roomLabels manager roomName epr :
  0 <= EprPorts.Min epr -> 0 <= EprPorts.Max epr ->
  getEprFromLabels (roomLabels manager roomName epr) = Ok epr.
Proof.
  intros Hmin Hmax. apply getEprFromLabels_Ok.
  exists (Sprintf_d (EprPorts.Min epr)), (Sprintf_d (EprPorts.Max epr)).
  rewrite roomLabels_epr_min, roomLabels_epr_max.
  by rewrite !parseDecimal_Sprintf_d.
Qed.


(** ** Properties of the published ports *)

Lemma portKey_inj (p q : Z) :
  Sprintf_d p +:+ "/udp" = Sprintf_d q +:+ "/udp" -> p = q.
Proof. intros H. by apply Sprintf_d_inj, (append_inj_r "/udp"). Qed.

(** A key the loop does not write keeps the binding it had. *)
Lemma publishLoop_other (n : nat) (key : string) :
  forall port pb ep,
    (forall p, port <= p < port + Z.of_nat n -> key <> Sprintf_d p +:+ "/udp") ->
    (publishLoop n port pb ep).1 !! key = pb !! key.
Proof.
  induction n as [| n IH]; intros port pb ep Hkey; simpl; [done |].
  rewrite IH by (intros p Hp; apply Hkey; lia).
  apply lookup_insert_ne. intros Heq. apply (Hkey port); [lia | done].
Qed.

(** Each port the loop visits is bound to the host port of the same number. *)
Lemma publishLoop_bound (n : nat) :
  forall port pb ep p,
    port <= p < port + Z.of_nat n ->
    (publishLoop n port pb ep).1 !! (Sprintf_d p +:+ "/udp")
    = Some [{| HostIP := "0.0.0.0"; HostPort := Sprintf_d p |}].
Proof.
  induction n as [| n IH]; intros port pb ep p Hp; simpl; [lia |].
  destruct (Z.eq_dec p port) as [-> | Hne].
  - rewrite publishLoop_other; [apply lookup_insert_eq |].
    intros q Hq Heq. apply portKey_inj in Heq. lia.
  - apply IH. lia.
Qed.

(** The loop writes no other binding. *)
Lemma publishLoop_only (n : nat) :
  forall port pb ep key bs,
    (publishLoop n port pb ep).1 !! key = Some bs ->
    (exists p, port <= p < port + Z.of_nat n /\ key = Sprintf_d p +:+ "/udp" /\
               bs = [{| HostIP := "0.0.0.0"; HostPort := Sprintf_d p |}])
    \/ pb !! key = Some bs.
Proof.
  induction n as [| n IH]; intros port pb ep key bs Hlook; simpl in Hlook; [by right |].
  apply IH in Hlook as [(p & Hp & Hkey & Hbs) | Hlook].
  - left. exists p. split; [lia | done].
  - apply lookup_insert_Some in Hlook as [[<- <-] | [_ Hlook]]; [| by right].
    left. exists port. split; [lia | done].
Qed.

(** The exposed set grows by exactly the keys of the visited ports. *)
Lemma publishLoop_exposed (n : nat) :
  forall port pb ep key,
    key ∈ (publishLoop n port pb ep).2 <->
    key ∈ ep \/ exists p, port <= p < port + Z.of_nat n /\ key = Sprintf_d p +:+ "/udp".
Proof.
  induction n as [| n IH]; intros port pb ep key; simpl.
  - split; [by left | intros [H | (p & Hp & _)]; [done | lia]].
  - rewrite IH, elem_of_union, elem_of_singleton. split.
    + intros [[-> | Hep] | (p & Hp & Hkey)].
      * right. exists port. split; [lia | done].
      * by left.
      * right. exists p. split; [lia | done].
    + intros [Hep | (p & Hp & Hkey)]; [left; by right |].
      destruct (Z.eq_dec p port) as [-> | Hne]; [left; by left |].
      right. exists p. split; [lia | done].
Qed.

Lemma publishPorts_range (epr : EprPorts.t) (p : Z) :
  EprPorts.Min epr <= p
    < EprPorts.Min epr + Z.of_nat (Z.to_nat (EprPorts.Max epr - EprPorts.Min epr + 1))
  <-> EprPorts.Min epr <= p <= EprPorts.Max epr.
Proof. lia. Qed.

(** A binding names host port [p] exactly when [p] is a port of the range. *)
Lemma publishPorts_host_port (epr : EprPorts.t) (p : Z) :
  (exists key bs b,
     (publishPorts epr).1 !! key = Some bs /\ b ∈ bs /\ HostPort b = Sprintf_d p)
  <-> EprPorts.Min epr <= p <= EprPorts.Max epr.
Proof.
  unfold publishPorts. split.
  - intros (key & bs & b & Hlook & Hb & Hport).
    apply publishLoop_only in Hlook as [(q & Hq & _ & ->) | Hempty];
      [| by rewrite lookup_empty in Hempty].
    apply list_elem_of_singleton in Hb. subst b. simpl in Hport.
    apply Sprintf_d_inj in Hport. subst q. by apply publishPorts_range.
  - intros Hin. eexists _, _, _. split; [| split].
    + apply publishLoop_bound. apply publishPorts_range. exact Hin.
    + apply list_elem_of_here.
    + reflexivity.
Qed.

(** The key of the control port is bound exactly when its number is a port
    of the range. *)
Lemma publishPorts_control_key (epr : EprPorts.t) :
  is_Some ((publishPorts epr).1 !! (Sprintf_d frontendPort +:+ "/udp")) <->
  EprPorts.Min epr <= frontendPort <= EprPorts.Max epr.
Proof.
  unfold publishPorts. split.
  - intros [bs Hlook].
    apply publishLoop_only in Hlook as [(p & Hp & Hkey & _) | Hempty];
      [| by rewrite lookup_empty in Hempty].
    apply portKey_inj in Hkey. subst p. by apply publishPorts_range.
  - intros Hin. rewrite publishLoop_bound by (by apply publishPorts_range). eauto.
Qed.

(** ** What [Create] hands to the engine *)

(** A successful [Create] leaves in the inventory a running workload under
    the returned id, built from the resolved name and the allocated range. *)
Lemma Create_Ok_inv (manager : RoomManagerCtx) (settings : RoomSettings.t Options)
    (e e' : Engine.t) (id : string) :
  Create manager settings e = (e', Ok id) ->
  exists roomName epr c,
    resolveName settings = Ok roomName /\
    allocatePorts manager e (RoomSettings.MaxConnections settings) = Ok epr /\
    c ∈ Engine.inventory e' /\
    Container.ID c = id /\
    Container.Name c = containerPrefix +:+ roomName /\
    Container.State c = "running" /\
    Container.Image c = nekoImage /\
    Container.Labels c = roomLabels manager roomName epr /\
    Container.Env c = baseEnv manager epr ++ ToEnv settings /\
    Container.Config c = containerConfigOf manager settings roomName epr /\
    Container.Host c = hostConfigOf (publishPorts epr).1.
Proof.
  unfold Create.
  destruct (resolveName settings) as [roomName | err]; [| by intros [= ]].
  destruct (allocatePorts manager e (RoomSettings.MaxConnections settings))
    as [epr | err]; [| by intros [= ]].
  unfold Engine.ContainerCreate.
  destruct (Engine.fault e (Engine.CallCreate (containerPrefix +:+ roomName)));
    [by intros [= ] |].
  unfold Engine.ContainerStart. simpl.
  destruct (Engine.fault e (Engine.CallStart (Engine.freshID e (Engine.inventory e))));
    [by intros [= ] |].
  intros [= <- <-]. exists roomName, epr. eexists. split; [done |]. split; [done |].
  split.
  - simpl. unfold Engine.setState. rewrite map_app. simpl.
    apply elem_of_app. right. apply list_elem_of_singleton. reflexivity.
  - unfold Engine.hasID. simpl. rewrite bool_decide_eq_true_2 by done. done.
Qed.

(** C6, as the code has it: the workload created by [Create] exposes the
    control port and every port of the allocated range, and its
    port-binding map holds exactly one binding for each port [p] of the
    range and nothing else: key [p/udp], bound on 0.0.0.0 to the host port
    of the same number (no remapping).  The control port is exposed, under
    one transport; no binding is written for it, so that a binding names
    host port 8080 only when 8080 is itself a port of the allocated
    range. *)
Theorem Create_binds_the_range (manager : RoomManagerCtx)
    (settings : RoomSettings.t Options) (e e' : Engine.t) (id : string) :
  Create manager settings e = (e', Ok id) ->
  exists epr c,
    allocatePorts manager e (RoomSettings.MaxConnections settings) = Ok epr /\
    c ∈ Engine.inventory e' /\ Container.ID c = id /\
    (forall p, EprPorts.Min epr <= p <= EprPorts.Max epr ->
       PortBindings (Container.Host c) !! (Sprintf_d p +:+ "/udp")
       = Some [{| HostIP := "0.0.0.0"; HostPort := Sprintf_d p |}]) /\
    (forall key bs, PortBindings (Container.Host c) !! key = Some bs ->
       exists p, EprPorts.Min epr <= p <= EprPorts.Max epr /\
         key = Sprintf_d p +:+ "/udp" /\
         bs = [{| HostIP := "0.0.0.0"; HostPort := Sprintf_d p |}]) /\
    (exists transport, forall key,
       key ∈ cfgExposedPorts (Container.Config c) <->
       key = Sprintf_d frontendPort +:+ "/" +:+ transport \/
       exists p, EprPorts.Min epr <= p <= EprPorts.Max epr /\
         key = Sprintf_d p +:+ "/udp") /\
    ((exists key bs b,
        PortBindings (Container.Host c) !! key = Some bs /\ b ∈ bs /\
        HostPort b = Sprintf_d frontendPort)
     <-> EprPorts.Min epr <= frontendPort <= EprPorts.Max epr).
Proof.
  intros Hcreate.
  destruct (Create_Ok_inv _ _ _ _ _ Hcreate)
    as (roomName & epr & c & _ & Halloc & Hin & Hid & _ & _ & _ & _ & _ & Hcfg & Hhost).
  exists epr, c. rewrite Hcfg, Hhost. simpl.
  split; [done |]. split; [done |]. split; [done |].
  split; [| split; [| split; [| exact (publishPorts_host_port epr frontendPort)]]];
    unfold publishPorts.
  - intros p Hp. apply publishLoop_bound. by apply publishPorts_range.
  - intros key bs Hlook.
    apply publishLoop_only in Hlook as [(p & Hp & Hkey & Hbs) | Hempty];
      [| by rewrite lookup_empty in Hempty].
    exists p. split; [by apply publishPorts_range | done].
  - exists "udp". intros key. rewrite publishLoop_exposed, elem_of_singleton.
    split; (intros [Hctl | (p & Hp & Hkey)]; [by left |]);
      right; exists p; (split; [by apply publishPorts_range | done]).
Qed.

(** [Join] is the standard library's [String.concat], separator first. *)
Lemma Join_concat (elems : list string) (sep : string) :
  Join elems sep = String.concat sep elems.
Proof.
  induction elems as [| e rest IH]; [done |].
  destruct rest as [| e' rest]; [done |].
  change (Join (e :: e' :: rest) sep) with (e +:+ sep +:+ Join (e' :: rest) sep).
  by rewrite IH.
Qed.

(** C7: the environment of the workload created by [Create] starts with
    the bind-port variable set to the control port constant 8080, the
    external port range written [MIN-MAX] from the allocated range, and
    the NAT hint holding the configured addresses joined by commas (the
    empty string when none is configured, the address alone when there is
    one); the variables derived from the settings follow. *)
Theorem Create_environment (manager : RoomManagerCtx)
    (settings : RoomSettings.t Options) (e e' : Engine.t) (id : string) :
  Create manager settings e = (e', Ok id) ->
  exists epr c,
    allocatePorts manager e (RoomSettings.MaxConnections settings) = Ok epr /\
    c ∈ Engine.inventory e' /\ Container.ID c = id /\
    Container.Env c
    = [ "NEKO_BIND=8080";
        "NEKO_EPR=" +:+ Sprintf_d (EprPorts.Min epr) +:+ "-"
                    +:+ Sprintf_d (EprPorts.Max epr);
        "NEKO_NAT1TO1=" +:+ String.concat "," (config.NAT1To1IPs (config manager)) ]
      ++ ToEnv settings /\
    (config.NAT1To1IPs (config manager) = [] ->
     "NEKO_NAT1TO1=" ∈ Container.Env c) /\
    (forall ip, config.NAT1To1IPs (config manager) = [ip] ->
     "NEKO_NAT1TO1=" +:+ ip ∈ Container.Env c) /\
    (forall ip1 ip2, config.NAT1To1IPs (config manager) = [ip1; ip2] ->
     "NEKO_NAT1TO1=" +:+ ip1 +:+ "," +:+ ip2 ∈ Container.Env c).
Proof.
  intros Hcreate.
  destruct (Create_Ok_inv _ _ _ _ _ Hcreate)
    as (roomName & epr & c & _ & Halloc & Hin & Hid & _ & _ & _ & _ & Henv & _).
  exists epr, c. rewrite Henv. unfold baseEnv. rewrite Join_concat.
  split; [done |]. split; [done |]. split; [done |]. split; [done |].
  assert (forall rest : list string,
            "NEKO_NAT1TO1=" +:+ String.concat "," (config.NAT1To1IPs (config manager))
              ∈ ([ "NEKO_BIND=" +:+ Sprintf_d frontendPort;
                   "NEKO_EPR=" +:+ Sprintf_d (EprPorts.Min epr) +:+ "-"
                               +:+ Sprintf_d (EprPorts.Max epr);
                   "NEKO_NAT1TO1="
                     +:+ String.concat "," (config.NAT1To1IPs (config manager)) ]
                 ++ rest)) as Hnat.
  { intros rest. apply elem_of_app. left.
    do 2 apply list_elem_of_further. apply list_elem_of_here. }
  split; [| split].
  - intros Hnone. rewrite Hnone in Hnat |- *. exact (Hnat _).
  - intros ip Hone. rewrite Hone in Hnat |- *. exact (Hnat _).
  - intros ip1 ip2 Htwo. rewrite Htwo in Hnat |- *. exact (Hnat _).
Qed.

(** C9: the url label of the workload created by [Create] is
    [<scheme>://<domain>/<roomName>/], with scheme [https] when a
    certificate resolver is configured and [http] when none is; the
    router's [tls] label (value [true]) and [tls.certresolver] label (the
    resolver's name) are present when a resolver is configured and absent
    when none is. *)
Theorem Create_url_and_tls (manager : RoomManagerCtx)
    (settings : RoomSettings.t Options) (e e' : Engine.t) (id : string) :
  Create manager settings e = (e', Ok id) ->
  exists roomName c scheme,
    resolveName settings = Ok roomName /\
    c ∈ Engine.inventory e' /\ Container.ID c = id /\
    Container.Labels c !! "m1k1o.neko_rooms.url"
    = Some (scheme +:+ "://" +:+ config.TraefikDomain (config manager)
            +:+ "/" +:+ roomName +:+ "/") /\
    (scheme = "https" <-> config.TraefikCertresolver (config manager) <> "") /\
    (scheme = "http" <-> config.TraefikCertresolver (config manager) = "") /\
    (Container.Labels c
       !! ("traefik.http.routers." +:+ (containerPrefix +:+ roomName) +:+ ".tls")
     = Some "true"
     <-> config.TraefikCertresolver (config manager) <> "") /\
    (Container.Labels c
       !! ("traefik.http.routers." +:+ (containerPrefix +:+ roomName) +:+ ".tls.certresolver")
     = Some (config.TraefikCertresolver (config manager))
     <-> config.TraefikCertresolver (config manager) <> "") /\
    (config.TraefikCertresolver (config manager) = "" ->
     Container.Labels c
       !! ("traefik.http.routers." +:+ (containerPrefix +:+ roomName) +:+ ".tls")
     = None /\
     Container.Labels c
       !! ("traefik.http.routers." +:+ (containerPrefix +:+ roomName) +:+ ".tls.certresolver")
     = None).
Proof.
  intros Hcreate.
  destruct (Create_Ok_inv _ _ _ _ _ Hcreate)
    as (roomName & epr & c & Hname & _ & Hin & Hid & _ & _ & _ & Hlabels & _).
  exists roomName, c, (urlProto manager). rewrite Hlabels.
  rewrite roomLabels_url, roomLabels_tls, roomLabels_certresolver.
  unfold urlProto. case_bool_decide as Hres.
  - repeat split; try done.
  - assert (config.TraefikCertresolver (config manager) = "") as Hempty
      by (destruct (decide (config.TraefikCertresolver (config manager) = "")); done).
    repeat split; try done.
Qed.

(** ** Membership checks *)

(** C8: [Remove], [Start], [Stop] and [Restart] inspect the target before
    they touch the engine.  When the target exists but does not bear the
    canary marker, each of them fails with the inspection error and leaves
    the engine as it was, without any state-changing request.  When it bears
    the marker, each hands the id to the engine primitive. *)
Theorem operations_check_membership (manager : RoomManagerCtx) (id : string)
    (e : Engine.t) (c : Container.t) :
  Engine.ContainerInspect id e = Ok c ->
  (Container.Labels c !! "m1k1o.neko_rooms.canary" <> Some labelCanary ->
     Remove manager id e = (e, Some (NotFoundError id)) /\
     Start manager id e = (e, Some (NotFoundError id)) /\
     Stop manager id e = (e, Some (NotFoundError id)) /\
     Restart manager id e = (e, Some (NotFoundError id))) /\
  (Container.Labels c !! "m1k1o.neko_rooms.canary" = Some labelCanary ->
     Start manager id e = Engine.ContainerStart id e /\
     Stop manager id e = Engine.ContainerStop id e /\
     Restart manager id e = Engine.ContainerRestart id e /\
     Remove manager id e
     = match Engine.ContainerStop id e with
       | (e1, Some err) => (e1, Some err)
       | (e1, None) => Engine.ContainerRemove id e1
       end).
Proof.
  intros Hinspect. split; intros Hcanary.
  - assert (inspectContainer id e = Err (NotFoundError id)) as Hrej.
    { unfold inspectContainer. rewrite Hinspect. simpl. unfold isRoom.
      by rewrite bool_decide_eq_false_2. }
    unfold Remove, Start, Stop, Restart. by rewrite Hrej.
  - assert (inspectContainer id e = Ok c) as Hacc.
    { unfold inspectContainer. rewrite Hinspect. simpl. unfold isRoom.
      by rewrite bool_decide_eq_true_2. }
    unfold Remove, Start, Stop, Restart. by rewrite Hacc.
Qed.

(** ** A failed start *)

Lemma allocate_Ok_pos (size : Z) (w : EprPorts.t) (existing : list EprPorts.t)
    (r : EprPorts.t) :
  allocate size w existing = Ok r -> 0 < size.
Proof.
  unfold allocate. destruct (size <=? 0) eqn:Hneg; [done |].
  intros _. by apply Z.leb_gt.
Qed.


(** ** Further properties of the manager *)

(** *** What the engine primitives leave alone *)

Lemma setState_Config (id state status : string) (inv : list Container.t) :
  map Container.Config (Engine.setState id state status inv)
  = map Container.Config inv.
Proof.
  unfold Engine.setState. induction inv as [| c inv IH]; [done |].
  simpl. rewrite IH. by destruct (Engine.hasID id c).
Qed.

Lemma setState_ID (id state status : string) (inv : list Container.t) :
  map Container.ID (Engine.setState id state status inv) = map Container.ID inv.
Proof.
  unfold Engine.setState. induction inv as [| c inv IH]; [done |].
  simpl. rewrite IH. by destruct (Engine.hasID id c).
Qed.

Lemma setState_others (id state status : string) (inv : list Container.t) :
  filter (fun c => Container.ID c <> id) (Engine.setState id state status inv)
  = filter (fun c => Container.ID c <> id) inv.
Proof.
  unfold Engine.setState. induction inv as [| c inv IH]; [done |].
  simpl. unfold Engine.hasID at 1. case_bool_decide as Hid.
  - rewrite !filter_cons_False by (simpl; intros Hne; by apply Hne). exact IH.
  - rewrite !filter_cons_True by done. by rewrite IH.
Qed.

(** The rooms and the leases read from an engine depend on the
    configurations of its workloads only, not on their state. *)
Lemma rooms_of_configs (l l' : list Container.t) :
  map Container.Config l = map Container.Config l' ->
  map Container.Config (filter (fun c => isRoom c = true) l)
  = map Container.Config (filter (fun c => isRoom c = true) l').
Proof.
  revert l'. induction l as [| c l IH]; intros [| c' l'] Hcfg; try done.
  simpl in Hcfg. injection Hcfg as Hc Hl.
  assert (isRoom c = isRoom c') as Hroom
    by (unfold isRoom, Container.Labels; by rewrite Hc).
  rewrite !filter_cons, <- Hroom.
  destruct (decide (isRoom c = true)); [simpl; rewrite Hc; f_equal |]; by apply IH.
Qed.

Lemma leases_of_configs (l l' : list Container.t) :
  map Container.Config l = map Container.Config l' ->
  mapM (fun c => getEprFromLabels (Container.Labels c)) l
  = mapM (fun c => getEprFromLabels (Container.Labels c)) l'.
Proof.
  revert l'. induction l as [| c l IH]; intros [| c' l'] Hcfg; try done.
  simpl in Hcfg. injection Hcfg as Hc Hl.
  assert (Container.Labels c = Container.Labels c') as Hlabels
    by (unfold Container.Labels; by rewrite Hc).
  simpl. by rewrite Hlabels, (IH l' Hl).
Qed.

Lemma getUsedPorts_configs (e e' : Engine.t) :
  Engine.fault e Engine.CallList = Engine.fault e' Engine.CallList ->
  map Container.Config (Engine.inventory e) = map Container.Config (Engine.inventory e') ->
  getUsedPorts e = getUsedPorts e'.
Proof.
  intros Hfault Hcfg. unfold getUsedPorts, listContainers, Engine.ContainerList.
  rewrite <- Hfault. destruct (Engine.fault e Engine.CallList); [done |]. simpl.
  by apply leases_of_configs, rooms_of_configs.
Qed.

(** *** [Create]: what a failure leaves behind *)

(** Ports are allocated from a listing of the inventory that the engine
    accepted, and the range handed out has the requested size. *)
Lemma allocatePorts_listed (manager : RoomManagerCtx) (e : Engine.t) (n : Z)
    (epr : EprPorts.t) :
  allocatePorts manager e n = Ok epr -> Engine.fault e Engine.CallList = None.
Proof.
  unfold allocatePorts, getUsedPorts, listContainers, Engine.ContainerList.
  by destruct (Engine.fault e Engine.CallList).
Qed.

Lemma allocatePorts_size (manager : RoomManagerCtx) (e : Engine.t) (n : Z)
    (epr : EprPorts.t) :
  allocatePorts manager e n = Ok epr ->
  EprPorts.Max epr - EprPorts.Min epr + 1 = n.
Proof.
  unfold allocatePorts.
  destruct (getUsedPorts e) as [existing | err]; [| done]. simpl. intros Halloc.
  pose proof (allocate_Ok_pos _ _ _ _ Halloc) as Hpos.
  destruct (allocate_sound _ _ _ _ Hpos Halloc) as [Hmax _]. lia.
Qed.

(** X1: the state-changing requests of a failed [Create] (the journal
    keeps creations, starts, stops, restarts and removals; reading the
    inventory to allocate the ports is not one of them and is not
    recorded) are none, or the creation only, or the creation and the
    start, and never a stop or a removal.  The engine is left as it was
    when the name or the ports could not be had; the inventory is unchanged
    when the engine refused the creation, whose error is the one returned;
    and it holds one more workload when the engine refused the start, whose
    error is the one returned. *)
Theorem Create_failure_modes (manager : RoomManagerCtx)
    (settings : RoomSettings.t Options) (e e' : Engine.t) (err : error) :
  Create manager settings e = (e', Err err) ->
  (e' = e /\
   (resolveName settings = Err err \/
    allocatePorts manager e (RoomSettings.MaxConnections settings) = Err err))
  \/ (exists roomName,
        resolveName settings = Ok roomName /\
        Engine.fault e (Engine.CallCreate (containerPrefix +:+ roomName)) = Some err /\
        Engine.inventory e' = Engine.inventory e /\
        Engine.journal e'
        = Engine.journal e ++ [Engine.CallCreate (containerPrefix +:+ roomName)])
  \/ (exists roomName c,
        resolveName settings = Ok roomName /\
        Engine.inventory e' = Engine.inventory e ++ [c] /\
        Container.Name c = containerPrefix +:+ roomName /\
        Engine.fault e (Engine.CallStart (Container.ID c)) = Some err /\
        Engine.journal e'
        = Engine.journal e ++ [Engine.CallCreate (containerPrefix +:+ roomName);
                               Engine.CallStart (Container.ID c)]).
Proof.
  unfold Create.
  destruct (resolveName settings) as [roomName | err0];
    [| intros [= <- <-]; left; split; [done | by left]].
  destruct (allocatePorts manager e (RoomSettings.MaxConnections settings))
    as [epr | err0]; [| intros [= <- <-]; left; split; [done | by right]].
  unfold Engine.ContainerCreate.
  destruct (Engine.fault e (Engine.CallCreate (containerPrefix +:+ roomName)))
    as [err0 |] eqn:Hcreate.
  - intros [= <- <-]. right. left. by exists roomName.
  - unfold Engine.ContainerStart. simpl.
    destruct (Engine.fault e (Engine.CallStart (Engine.freshID e (Engine.inventory e))))
      as [err0 |] eqn:Hstart; [| by intros [= ]].
    intros [= <- <-]. right. right. eexists roomName, _. simpl.
    split; [done |]. split; [done |]. split; [done |]. split; [exact Hstart |].
    by rewrite <- app_assoc.
Qed.

(** X2: a successful [Create] had three requests accepted by the engine:
    the listing of the inventory from which the ports are allocated, the
    creation, and the start of the workload it returns.  Of these the
    state-changing ones, which the journal records (it keeps creations,
    starts, stops, restarts and removals, not listings or inspections),
    are the creation and then the start, and no other.  The inventory
    holds one more workload, with the id the engine gave; the workloads
    that were there keep their ids and their configurations (labels,
    environment, ports). *)
Theorem Create_success_effect (manager : RoomManagerCtx)
    (settings : RoomSettings.t Options) (e e' : Engine.t) (id : string) :
  Create manager settings e = (e', Ok id) ->
  exists roomName epr,
    resolveName settings = Ok roomName /\
    allocatePorts manager e (RoomSettings.MaxConnections settings) = Ok epr /\
    id = Engine.freshID e (Engine.inventory e) /\
    Engine.journal e'
    = Engine.journal e ++ [Engine.CallCreate (containerPrefix +:+ roomName);
                           Engine.CallStart id] /\
    map Container.ID (Engine.inventory e') = map Container.ID (Engine.inventory e) ++ [id] /\
    map Container.Config (Engine.inventory e')
    = map Container.Config (Engine.inventory e)
      ++ [containerConfigOf manager settings roomName epr] /\
    Engine.fault e' = Engine.fault e /\
    Engine.fault e Engine.CallList = None /\
    Engine.fault e (Engine.CallCreate (containerPrefix +:+ roomName)) = None /\
    Engine.fault e (Engine.CallStart id) = None.
Proof.
  unfold Create.
  destruct (resolveName settings) as [roomName | err]; [| by intros [= ]].
  destruct (allocatePorts manager e (RoomSettings.MaxConnections settings))
    as [epr | err] eqn:Halloc; [| by intros [= ]].
  pose proof (allocatePorts_listed _ _ _ _ Halloc) as Hlisted.
  unfold Engine.ContainerCreate.
  destruct (Engine.fault e (Engine.CallCreate (containerPrefix +:+ roomName)))
    eqn:Hcreate; [by intros [= ] |].
  unfold Engine.ContainerStart. simpl.
  destruct (Engine.fault e (Engine.CallStart (Engine.freshID e (Engine.inventory e))))
    eqn:Hstart; [by intros [= ] |].
  intros [= <- <-]. exists roomName, epr. simpl.
  rewrite setState_ID, setState_Config, !map_app, <- app_assoc. done.
Qed.


(** *** The labels written by [Create] *)

Ltac fresh_label :=
  repeat (rewrite lookup_insert_ne by key_ne); apply lookup_empty.

(** X4: whatever the room name, no two keys of the label map coincide: the
    map has thirteen entries, and fifteen when a certificate resolver is
    configured. *)
Theorem roomLabels_size (manager : RoomManagerCtx) (roomName : string)
    (epr : EprPorts.t) :
  size (roomLabels manager roomName epr)
  = if bool_decide (config.TraefikCertresolver (config manager) <> "")
    then 15%nat else 13%nat.
Proof.
  unfold roomLabels. cbv zeta. case_bool_decide;
    repeat (rewrite map_size_insert_None by fresh_label);
    by rewrite map_size_empty.
Qed.

Lemma append_assoc (a b c : string) : (a +:+ b) +:+ c = a +:+ (b +:+ c).
Proof.
  induction a as [| x a IH]; [done |].
  change (String x ((a +:+ b) +:+ c) = String x (a +:+ (b +:+ c))). by rewrite IH.
Qed.

(** X5: the routing labels refer to one another consistently.  The router
    of a room is bound to the two middlewares [<container>-rdr] and
    [<container>-prf], and these are the names under which the label map
    defines the redirect from [/<room>] to [/<room>/] and the stripping of
    the prefix [/<room>/]; the router matches the configured domain and
    the path prefix [/<room>], and the service port is the control port. *)
Theorem roomLabels_routing (manager : RoomManagerCtx) (roomName : string)
    (epr : EprPorts.t) :
  let labels := roomLabels manager roomName epr in
  let router := containerPrefix +:+ roomName in
  let rdr := router +:+ "-rdr" in
  let prf := router +:+ "-prf" in
  labels !! "traefik.enable" = Some "true" /\
  labels !! ("traefik.http.routers." +:+ router +:+ ".middlewares")
  = Some (rdr +:+ "," +:+ prf) /\
  labels !! ("traefik.http.middlewares." +:+ rdr +:+ ".redirectregex.regex")
  = Some ("/" +:+ roomName +:+ "$$") /\
  labels !! ("traefik.http.middlewares." +:+ rdr +:+ ".redirectregex.replacement")
  = Some ("/" +:+ roomName +:+ "/") /\
  labels !! ("traefik.http.middlewares." +:+ prf +:+ ".stripprefix.prefixes")
  = Some ("/" +:+ roomName +:+ "/") /\
  labels !! ("traefik.http.routers." +:+ router +:+ ".rule")
  = Some ("Host(`" +:+ config.TraefikDomain (config manager)
          +:+ "`) && PathPrefix(`/" +:+ roomName +:+ "`)") /\
  labels !! ("traefik.http.routers." +:+ router +:+ ".entrypoints")
  = Some (config.TraefikEntrypoint (config manager)) /\
  labels !! ("traefik.http.services." +:+ router
             +:+ "-frontend.loadbalancer.server.port")
  = Some "8080".
Proof.
  intros labels router rdr prf. subst labels rdr prf router.
  rewrite !(append_assoc (containerPrefix +:+ roomName)).
  change ("-rdr" +:+ ".redirectregex.regex") with "-rdr.redirectregex.regex".
  change ("-rdr" +:+ ".redirectregex.replacement")
    with "-rdr.redirectregex.replacement".
  change ("-prf" +:+ ".stripprefix.prefixes") with "-prf.stripprefix.prefixes".
  change ("-rdr" +:+ "," +:+ containerPrefix +:+ roomName +:+ "-prf")
    with ("-rdr," +:+ containerPrefix +:+ roomName +:+ "-prf").
  repeat split; lookup_label.
Qed.

(** X6: rooms with different names get different container names,
    different urls and different router rule keys. *)
Theorem room_names_keep_rooms_apart (manager : RoomManagerCtx)
    (name1 name2 : string) (epr1 epr2 : EprPorts.t) :
  name1 <> name2 ->
  containerPrefix +:+ name1 <> containerPrefix +:+ name2 /\
  roomLabels manager name1 epr1 !! "m1k1o.neko_rooms.url"
  <> roomLabels manager name2 epr2 !! "m1k1o.neko_rooms.url" /\
  "traefik.http.routers." +:+ (containerPrefix +:+ name1) +:+ ".rule"
  <> "traefik.http.routers." +:+ (containerPrefix +:+ name2) +:+ ".rule".
Proof.
  intros Hne. split; [| split].
  - intros H. by apply (inj (String.append _)) in H.
  - rewrite !roomLabels_url. intros [= H].
    do 4 apply (inj (String.append _)) in H. by apply append_inj_r in H.
  - intros H. apply (inj (String.append _)), append_inj_r in H.
    by apply (inj (String.append _)) in H.
Qed.

(** *** The ports published by [Create] *)

Lemma publishLoop_size (n : nat) :
  forall port pb ep,
    (forall p, port <= p < port + Z.of_nat n -> pb !! (Sprintf_d p +:+ "/udp") = None) ->
    size (publishLoop n port pb ep).1 = (size pb + n)%nat.
Proof.
  induction n as [| n IH]; intros port pb ep Hfree; simpl; [lia |].
  rewrite IH.
  - rewrite map_size_insert_None by (apply Hfree; lia). lia.
  - intros p Hp. rewrite lookup_insert_ne; [apply Hfree; lia |].
    intros Heq. apply portKey_inj in Heq. lia.
Qed.

Lemma publishPorts_size (epr : EprPorts.t) :
  size (publishPorts epr).1 = Z.to_nat (EprPorts.Max epr - EprPorts.Min epr + 1).
Proof.
  unfold publishPorts.
  rewrite publishLoop_size by (intros; apply lookup_empty).
  by rewrite map_size_empty.
Qed.

(** The exposed ports are the control port and the keys of the bindings. *)
Lemma publishPorts_exposed_dom (epr : EprPorts.t) :
  (publishPorts epr).2
  = {[Sprintf_d frontendPort +:+ "/udp"]} ∪ dom (publishPorts epr).1.
Proof.
  apply set_eq. intros key. unfold publishPorts.
  rewrite publishLoop_exposed, elem_of_union, elem_of_dom.
  split; (intros [Hctl | Hrange]; [by left | right]).
  - destruct Hrange as (p & Hp & ->). rewrite publishLoop_bound by done. eauto.
  - destruct Hrange as [bs Hlook].
    apply publishLoop_only in Hlook as [(p & Hp & Hkey & _) | Hempty];
      [| by rewrite lookup_empty in Hempty].
    by exists p.
Qed.

(** X7: how many ports a returned [Create] published.  The workload it
    created has as many bindings as the allocated range has ports,
    [max - min + 1], each under a key of its own, and exposes one port
    more than it binds, the control port, unless 8080 is itself a port of
    the range, in which case it exposes exactly the ports it binds. *)
Theorem Create_port_counts (manager : RoomManagerCtx)
    (settings : RoomSettings.t Options) (e e' : Engine.t) (id : string) :
  Create manager settings e = (e', Ok id) ->
  exists epr c,
    allocatePorts manager e (RoomSettings.MaxConnections settings) = Ok epr /\
    c ∈ Engine.inventory e' /\ Container.ID c = id /\
    size (PortBindings (Container.Host c))
    = Z.to_nat (EprPorts.Max epr - EprPorts.Min epr + 1) /\
    size (cfgExposedPorts (Container.Config c))
    = (if bool_decide (EprPorts.Min epr <= frontendPort <= EprPorts.Max epr)
       then size (PortBindings (Container.Host c))
       else S (size (PortBindings (Container.Host c)))).
Proof.
  intros Hcreate.
  destruct (Create_Ok_inv _ _ _ _ _ Hcreate)
    as (roomName & epr & c & _ & Halloc & Hin & Hid & _ & _ & _ & _ & _ & Hcfg & Hhost).
  exists epr, c. rewrite Hcfg, Hhost.
  cbn [cfgExposedPorts containerConfigOf PortBindings hostConfigOf].
  split; [done |]. split; [done |]. split; [done |].
  split; [apply publishPorts_size |].
  rewrite publishPorts_exposed_dom.
  pose proof (publishPorts_control_key epr) as Hctl.
  rewrite <- elem_of_dom in Hctl.
  destruct (bool_decide_reflect
              (EprPorts.Min epr <= frontendPort <= EprPorts.Max epr)) as [Hin8080 | Hout].
  - apply Hctl in Hin8080.
    rewrite subseteq_union_1_L by (by apply singleton_subseteq_l).
    apply size_dom.
  - rewrite size_union by (apply disjoint_singleton_l; intros Hdom; by apply Hout, Hctl).
    by rewrite size_singleton, size_dom.
Qed.

(** X8: the three places where [Create] writes the lease agree.  For the
    workload it creates there is one range [min, max] such that the labels
    [epr.min] and [epr.max] hold its bounds in decimal, the environment
    holds [NEKO_EPR=min-max], and the keys of the port-binding map are the
    keys [p/udp] of its ports. *)
Theorem Create_lease_is_written_consistently (manager : RoomManagerCtx)
    (settings : RoomSettings.t Options) (e e' : Engine.t) (id : string) :
  Create manager settings e = (e', Ok id) ->
  exists epr c,
    c ∈ Engine.inventory e' /\ Container.ID c = id /\
    Container.Labels c !! "m1k1o.neko_rooms.epr.min" = Some (Sprintf_d (EprPorts.Min epr)) /\
    Container.Labels c !! "m1k1o.neko_rooms.epr.max" = Some (Sprintf_d (EprPorts.Max epr)) /\
    "NEKO_EPR=" +:+ Sprintf_d (EprPorts.Min epr) +:+ "-" +:+ Sprintf_d (EprPorts.Max epr)
      ∈ Container.Env c /\
    (forall key, key ∈ dom (PortBindings (Container.Host c)) <->
       exists p, EprPorts.Min epr <= p <= EprPorts.Max epr /\
         key = Sprintf_d p +:+ "/udp").
Proof.
  intros Hcreate.
  destruct (Create_Ok_inv _ _ _ _ _ Hcreate)
    as (roomName & epr & c & _ & _ & Hin & Hid & _ & _ & _ & Hlabels & Henv & _ & Hhost).
  exists epr, c. rewrite Hlabels, Henv, Hhost, roomLabels_epr_min, roomLabels_epr_max.
  repeat split; try done.
  - apply elem_of_app. left. unfold baseEnv.
    apply list_elem_of_further, list_elem_of_here.
  - intros [bs Hlook]%elem_of_dom. simpl in Hlook. unfold publishPorts in Hlook.
    apply publishLoop_only in Hlook as [(p & Hp & Hkey & _) | Hempty];
      [| by rewrite lookup_empty in Hempty].
    exists p. split; [by apply publishPorts_range | done].
  - intros (p & Hp & ->). apply elem_of_dom. simpl. unfold publishPorts.
    rewrite publishLoop_bound by (by apply publishPorts_range). eauto.
Qed.

(** *** [Get] *)

(** Whatever the integer type, a workload whose labels hold the range from
    0 to the greatest value of the type is reported with the least value
    of the type as its number of connections, which is not
    [max - min + 1]. *)
Lemma entryOf_whole_type (c : Container.t) (entry : RoomEntry.t) :
  getEprFromLabels (Container.Labels c) = Ok (EprPorts.mk 0 intMax) ->
  entryOf c = Ok entry ->
  RoomEntry.MaxConnections entry = intMin /\
  RoomEntry.MaxConnections entry <> intMax - 0 + 1.
Proof.
  intros Hepr Hentry.
  destruct (entryOf_MaxConnections c entry Hentry) as (epr & Hepr' & Hmax).
  rewrite Hepr in Hepr'. injection Hepr' as <-. simpl in Hmax.
  destruct add_sub_one_overflow as [Hmin Hne].
  rewrite Hmax, Hmin. by split.
Qed.

(** X9: what [Get] answers.  It never returns neither settings nor error.
    Without settings, the error is the inspection error, the missing name
    label, or the range decoding error, in this order of checks.  With
    settings, the name is the name label of the inspected workload, the
    number of connections is [max - min + 1] of its decoded range as the
    integer type of the bounds computes it (wrapped around when the number
    is not a value of the type), and the error is the one of [FromEnv] on
    the workload's environment: when [FromEnv] fails, the settings are
    returned together with its error. *)
Theorem Get_outcome (manager : RoomManagerCtx) (id : string) (e : Engine.t) :
  match Get manager id e with
  | (None, None) => False
  | (None, Some err) =>
      inspectContainer id e = Err err \/
      exists c, inspectContainer id e = Ok c /\
        ((Container.Labels c !! "m1k1o.neko_rooms.name" = None /\
          err = Errorf "Damaged container labels: name not found.") \/
         (is_Some (Container.Labels c !! "m1k1o.neko_rooms.name") /\
          getEprFromLabels (Container.Labels c) = Err err))
  | (Some settings, err) =>
      exists c epr, inspectContainer id e = Ok c /\
        Container.Labels c !! "m1k1o.neko_rooms.name"
        = Some (RoomSettings.Name settings) /\
        getEprFromLabels (Container.Labels c) = Ok epr /\
        RoomSettings.MaxConnections settings
        = GoInt.wrap (EprPorts.Max epr - EprPorts.Min epr + 1) /\
        FromEnv zeroOptions (Container.Env c) = (RoomSettings.Opts settings, err)
  end.
Proof.
  unfold Get.
  destruct (inspectContainer id e) as [c | err0]; [| by left].
  destruct (Container.Labels c !! "m1k1o.neko_rooms.name") as [roomName |] eqn:Hname;
    [| right; exists c; split; [done |]; by left].
  destruct (getEprFromLabels (Container.Labels c)) as [epr | err0] eqn:Hepr;
    [| right; exists c; split; [done |]; right; by split].
  simpl. destruct (FromEnv zeroOptions (Container.Env c)) as [opts err] eqn:Henv.
  exists c, epr. simpl. rewrite add_sub_one. by repeat split.
Qed.

Lemma mapM_result_Err {A B : Type} (f : A -> result B) (l : list A) (err : error) :
  mapM f l = Err err ->
  exists good x rest ys,
    l = good ++ x :: rest /\ Forall2 (fun a b => f a = Ok b) good ys /\ f x = Err err.
Proof.
  induction l as [| x l IH]; simpl; [done |].
  destruct (f x) as [y | err0] eqn:Hx; simpl.
  - destruct (mapM f l) as [ys | err1] eqn:Hl; simpl; [done |].
    intros [= ->]. destruct (IH eq_refl) as (good & x' & rest & ys & -> & Hgood & Hx').
    exists (x :: good), x', rest, (y :: ys). repeat split; [by constructor | done].
  - intros [= ->]. by exists [], x, l, [].
Qed.

(** X10: when [List] fails on metadata, its error is the one of the first
    canary-marked workload, in inventory order, that does not decode; the
    workloads in front of it all decode. *)
Theorem List_reports_first_failure (manager : RoomManagerCtx) (e : Engine.t)
    (containers : list Container.t) (err : error) :
  listContainers e = Ok containers ->
  List manager e = Err err ->
  exists good c rest entries,
    containers = good ++ c :: rest /\
    Forall2 (fun c entry => entryOf c = Ok entry) good entries /\
    entryOf c = Err err.
Proof.
  intros Hlist HList. rewrite (List_mapM manager e containers Hlist) in HList.
  by apply mapM_result_Err.
Qed.

(** X11: [Get] does not read the url label while [List] does.  For a
    canary-marked workload with a name label and a range that decodes but
    no url label, [Get] returns settings, whereas [List] fails as long as
    that workload is in the inventory. *)
Theorem Get_does_not_need_url (manager : RoomManagerCtx) (id : string)
    (e : Engine.t) (c : Container.t) (containers : list Container.t) :
  inspectContainer id e = Ok c ->
  listContainers e = Ok containers -> c ∈ containers ->
  is_Some (Container.Labels c !! "m1k1o.neko_rooms.name") ->
  (exists epr, getEprFromLabels (Container.Labels c) = Ok epr) ->
  Container.Labels c !! "m1k1o.neko_rooms.url" = None ->
  (exists settings err, Get manager id e = (Some settings, err)) /\
  (exists err, List manager e = Err err).
Proof.
  intros Hinspect Hlist Hin [roomName Hname] [epr Hepr] Hurl. split.
  - unfold Get. rewrite Hinspect, Hname, Hepr. simpl.
    destruct (FromEnv zeroOptions (Container.Env c)) as [opts err]. eauto.
  - rewrite (List_mapM manager e containers Hlist).
    destruct (mapM entryOf containers) as [entries | err] eqn:Hmap; [| eauto].
    exfalso. apply mapM_result_Forall2 in Hmap.
    apply list_elem_of_lookup in Hin as [i Hi].
    destruct (Forall2_lookup_l _ _ _ _ _ Hmap Hi) as (entry & _ & Hentry).
    unfold entryOf in Hentry. rewrite Hname, Hurl in Hentry. discriminate.
Qed.

(** *** [Remove] *)

Lemma Remove_success_inv (manager : RoomManagerCtx) (id : string) (e e' : Engine.t) :
  Remove manager id e = (e', None) ->
  Engine.inventory e'
  = filter (fun c => Container.ID c <> id) (Engine.inventory e) /\
  Engine.fault e' = Engine.fault e.
Proof.
  unfold Remove.
  destruct (inspectContainer id e) as [c | err]; [| by intros [= ]].
  unfold Engine.ContainerStop.
  destruct (Engine.fault e (Engine.CallStop id)); [by intros [= ] |].
  unfold Engine.ContainerRemove. simpl.
  destruct (Engine.fault e (Engine.CallRemove id)); [by intros [= ] |].
  intros [= <-]. simpl. by rewrite setState_others.
Qed.

(** X12: a successful [Remove] stops and then removes: the engine
    received these two requests, in this order, for a workload that passed
    the membership check; every workload with that id is gone from the
    inventory and every other workload is there exactly as before. *)
Theorem Remove_success (manager : RoomManagerCtx) (id : string) (e e' : Engine.t) :
  Remove manager id e = (e', None) ->
  (exists c, inspectContainer id e = Ok c) /\
  Engine.inventory e'
  = filter (fun c => Container.ID c <> id) (Engine.inventory e) /\
  Engine.journal e'
  = Engine.journal e ++ [Engine.CallStop id; Engine.CallRemove id] /\
  Engine.fault e' = Engine.fault e.
Proof.
  unfold Remove.
  destruct (inspectContainer id e) as [c | err]; [| by intros [= ]].
  unfold Engine.ContainerStop.
  destruct (Engine.fault e (Engine.CallStop id)); [by intros [= ] |].
  unfold Engine.ContainerRemove. simpl.
  destruct (Engine.fault e (Engine.CallRemove id)); [by intros [= ] |].
  intros [= <-]. simpl. split; [eauto |].
  rewrite setState_others, <- app_assoc. done.
Qed.

(** X13: a failed [Remove] deletes nothing.  Either the membership check
    failed and the engine is untouched; or the engine refused the stop, in
    which case no removal is requested and the inventory is unchanged; or
    it refused the removal, in which case every workload is still there
    with its id and configuration.  The error returned is the one of the
    step that failed. *)
Theorem Remove_failure (manager : RoomManagerCtx) (id : string) (e e' : Engine.t)
    (err : error) :
  Remove manager id e = (e', Some err) ->
  (e' = e /\ inspectContainer id e = Err err)
  \/ (Engine.fault e (Engine.CallStop id) = Some err /\
      Engine.inventory e' = Engine.inventory e /\
      Engine.journal e' = Engine.journal e ++ [Engine.CallStop id])
  \/ (Engine.fault e (Engine.CallRemove id) = Some err /\
      map Container.ID (Engine.inventory e') = map Container.ID (Engine.inventory e) /\
      map Container.Config (Engine.inventory e')
      = map Container.Config (Engine.inventory e) /\
      Engine.journal e'
      = Engine.journal e ++ [Engine.CallStop id; Engine.CallRemove id]).
Proof.
  unfold Remove.
  destruct (inspectContainer id e) as [c | err0]; [| intros [= <- <-]; by left].
  unfold Engine.ContainerStop.
  destruct (Engine.fault e (Engine.CallStop id)) as [err0 |] eqn:Hstop.
  - intros [= <- <-]. right. left. done.
  - unfold Engine.ContainerRemove. simpl.
    destruct (Engine.fault e (Engine.CallRemove id)) as [err0 |] eqn:Hremove;
      [| by intros [= ]].
    intros [= <- <-]. right. right. simpl.
    rewrite setState_ID, setState_Config, <- app_assoc. done.
Qed.

(** *** [Start], [Stop] and [Restart] *)

(** X14: [Start], [Stop] and [Restart], whether they succeed or fail,
    neither add nor delete a workload nor change a configuration: ids,
    labels, environments and port bindings are as before, and so are the
    leases read from the inventory.  A stopped room keeps its lease. *)
Theorem lifecycle_keeps_leases (manager : RoomManagerCtx) (id : string)
    (e : Engine.t) :
  sameWorkloads e (Start manager id e).1 /\
  sameWorkloads e (Stop manager id e).1 /\
  sameWorkloads e (Restart manager id e).1.
Proof.
  assert (forall e' : Engine.t,
            Engine.fault e' = Engine.fault e ->
            map Container.ID (Engine.inventory e') = map Container.ID (Engine.inventory e) ->
            map Container.Config (Engine.inventory e')
            = map Container.Config (Engine.inventory e) ->
            sameWorkloads e e') as Hkeep.
  { intros e' Hfault Hid Hcfg. split; [done |]. split; [done |].
    apply getUsedPorts_configs; [by rewrite Hfault | done]. }
  unfold Start, Stop, Restart.
  destruct (inspectContainer id e) as [c | err]; simpl;
    [| by repeat split; apply Hkeep].
  unfold Engine.ContainerStart, Engine.ContainerStop, Engine.ContainerRestart.
  destruct (Engine.fault e (Engine.CallStart id));
    destruct (Engine.fault e (Engine.CallStop id));
    destruct (Engine.fault e (Engine.CallRestart id)); simpl;
    repeat split; apply Hkeep; simpl; rewrite ?setState_ID, ?setState_Config; done.
Qed.

Lemma setState_state (id state status : string) (inv : list Container.t)
    (c : Container.t) :
  c ∈ Engine.setState id state status inv -> Container.ID c = id ->
  Container.State c = state.
Proof.
  unfold Engine.setState. intros Hin Hid.
  apply list_elem_of_fmap in Hin as (c0 & -> & _).
  unfold Engine.hasID in *. case_bool_decide as Hc0; [done |].
  by destruct Hc0.
Qed.

(** X15: the running flag of [List] follows the last successful
    request.  After a successful [Start] or [Restart] every workload with
    that id decodes to an entry with [Running = true]; after a successful
    [Stop], to an entry with [Running = false]. *)
Theorem Running_follows_lifecycle (manager : RoomManagerCtx) (id : string)
    (e e' : Engine.t) (c : Container.t) (entry : RoomEntry.t) :
  c ∈ Engine.inventory e' -> Container.ID c = id -> entryOf c = Ok entry ->
  (Start manager id e = (e', None) -> RoomEntry.Running entry = true) /\
  (Restart manager id e = (e', None) -> RoomEntry.Running entry = true) /\
  (Stop manager id e = (e', None) -> RoomEntry.Running entry = false).
Proof.
  intros Hin Hid Hentry.
  assert (RoomEntry.Running entry = bool_decide (Container.State c = "running"))
    as ->.
  { unfold entryOf in Hentry.
    destruct (Container.Labels c !! "m1k1o.neko_rooms.name"); simpl in *; [| done].
    destruct (Container.Labels c !! "m1k1o.neko_rooms.url"); simpl in *; [| done].
    destruct (getEprFromLabels (Container.Labels c)); simpl in *; [| done].
    by injection Hentry as <-. }
  unfold Start, Restart, Stop.
  destruct (inspectContainer id e) as [c0 | err]; [| by repeat split].
  unfold Engine.ContainerStart, Engine.ContainerRestart, Engine.ContainerStop.
  repeat split;
    match goal with
    | |- context [Engine.fault e ?call] => destruct (Engine.fault e call)
    end; try done; intros [= <-]; simpl in Hin;
    by rewrite (setState_state _ _ _ _ _ Hin Hid).
Qed.

(** *** How the operations compose *)

Lemma setState_fresh (id state status : string) (inv : list Container.t) :
  Forall (fun c => Container.ID c <> id) inv ->
  Engine.setState id state status inv = inv.
Proof.
  unfold Engine.setState. induction 1 as [| c inv Hc _ IH]; [done |].
  simpl. rewrite IH. unfold Engine.hasID. by rewrite bool_decide_eq_false_2.
Qed.

Lemma find_fresh (id : string) (inv rest : list Container.t) :
  Forall (fun c => Container.ID c <> id) inv ->
  find (Engine.hasID id) (inv ++ rest) = find (Engine.hasID id) rest.
Proof.
  induction 1 as [| c inv Hc _ IH]; [done |].
  simpl. unfold Engine.hasID at 1. by rewrite bool_decide_eq_false_2.
Qed.

Lemma filter_fresh (id : string) (inv : list Container.t) :
  Forall (fun c => Container.ID c <> id) inv ->
  filter (fun c => Container.ID c <> id) inv = inv.
Proof.
  induction 1 as [| c inv Hc _ IH]; [done |].
  by rewrite filter_cons_True, IH.
Qed.

(** The engine after a successful [Create] whose id is new to the
    inventory: the former workloads, as they were, followed by the new one,
    running. *)
Lemma Create_Ok_fresh (manager : RoomManagerCtx) (settings : RoomSettings.t Options)
    (e e' : Engine.t) (id : string) :
  Create manager settings e = (e', Ok id) ->
  Forall (fun c => Container.ID c <> id) (Engine.inventory e) ->
  exists roomName epr,
    resolveName settings = Ok roomName /\
    allocatePorts manager e (RoomSettings.MaxConnections settings) = Ok epr /\
    Engine.fault e' = Engine.fault e /\
    Engine.inventory e'
    = Engine.inventory e
      ++ [{| Container.ID := id;
             Container.Name := containerPrefix +:+ roomName;
             Container.State := "running"; Container.Status := "Up";
             Container.Created := Engine.clock e;
             Container.Config := containerConfigOf manager settings roomName epr;
             Container.Host := hostConfigOf (publishPorts epr).1;
             Container.Networking := networkingConfigOf manager |}].
Proof.
  unfold Create.
  destruct (resolveName settings) as [roomName | err]; [| by intros [= ]].
  destruct (allocatePorts manager e (RoomSettings.MaxConnections settings))
    as [epr | err]; [| by intros [= ]].
  unfold Engine.ContainerCreate.
  destruct (Engine.fault e (Engine.CallCreate (containerPrefix +:+ roomName)));
    [by intros [= ] |].
  unfold Engine.ContainerStart. simpl.
  destruct (Engine.fault e (Engine.CallStart (Engine.freshID e (Engine.inventory e))));
    [by intros [= ] |].
  intros [= <- <-] Hfresh. exists roomName, epr. simpl.
  split; [done |]. split; [done |]. split; [done |].
  unfold Engine.setState. rewrite map_app. fold (Engine.setState
    (Engine.freshID e (Engine.inventory e)) "running" "Up" (Engine.inventory e)).
  rewrite setState_fresh by done. simpl.
  unfold Engine.hasID. simpl. by rewrite bool_decide_eq_true_2.
Qed.

(** X16: [Remove] undoes [Create].  After a successful [Create] that
    returned an id new to the inventory, and with an engine that accepts
    the inspection, the stop and the removal of that id, [Remove] succeeds
    and the inventory is the one before the [Create]; the next allocation
    sees the leases as they were. *)
Theorem Remove_undoes_Create (manager : RoomManagerCtx)
    (settings : RoomSettings.t Options) (e e1 : Engine.t) (id : string) :
  Create manager settings e = (e1, Ok id) ->
  Forall (fun c => Container.ID c <> id) (Engine.inventory e) ->
  Engine.fault e (Engine.CallInspect id) = None ->
  Engine.fault e (Engine.CallStop id) = None ->
  Engine.fault e (Engine.CallRemove id) = None ->
  exists e2,
    Remove manager id e1 = (e2, None) /\
    Engine.inventory e2 = Engine.inventory e /\
    getUsedPorts e2 = getUsedPorts e /\
    forall n, allocatePorts manager e2 n = allocatePorts manager e n.
Proof.
  intros Hcreate Hfresh Hinspect Hstop Hremove.
  destruct (Create_Ok_fresh _ _ _ _ _ Hcreate Hfresh)
    as (roomName & epr & _ & _ & Hfault & Hinv).
  assert (exists c, inspectContainer id e1 = Ok c) as [c Hc].
  { unfold inspectContainer, Engine.ContainerInspect.
    rewrite Hfault, Hinspect, Hinv, find_fresh by done. simpl.
    unfold Engine.hasID. simpl. rewrite bool_decide_eq_true_2 by done. simpl.
    unfold isRoom, Container.Labels. simpl.
    rewrite roomLabels_canary, bool_decide_eq_true_2 by done. eauto. }
  unfold Remove. rewrite Hc.
  unfold Engine.ContainerStop. rewrite Hfault, Hstop.
  unfold Engine.ContainerRemove. simpl. rewrite Hfault, Hremove.
  eexists. split; [reflexivity |]. simpl.
  assert (filter (fun c0 => Container.ID c0 <> id)
            (Engine.setState id "exited" "Exited" (Engine.inventory e1))
          = Engine.inventory e) as Hback.
  { rewrite setState_others, Hinv, filter_app, filter_fresh by done.
    rewrite filter_cons_False, filter_nil by (simpl; intros Hne; by apply Hne).
    by rewrite app_nil_r. }
  rewrite Hback. split; [done |].
  assert (forall e2 : Engine.t,
            Engine.fault e2 = Engine.fault e ->
            Engine.inventory e2 = Engine.inventory e ->
            getUsedPorts e2 = getUsedPorts e) as Hsame.
  { intros e2 Hf Hi. apply getUsedPorts_configs; [by rewrite Hf | by rewrite Hi]. }
  split.
  - by apply Hsame.
  - intros n. unfold allocatePorts. by rewrite Hsame.
Qed.

(** X17: [Get] reads back what [Create] wrote.  After a successful
    [Create] that returned an id new to the inventory, for an allocated
    range whose bounds are not negative and an engine that accepts the
    inspection, [Get] on that id returns settings with the room name that
    [Create] resolved and with the number of connections that was asked
    for, which is the size of the allocated range; the number asked for is
    a value of the integer type, so that the count does not wrap around.
    The options and the error are those of [FromEnv] on the environment
    [Create] built. *)
Theorem Get_after_Create (manager : RoomManagerCtx)
    (settings : RoomSettings.t Options) (e e' : Engine.t) (id roomName : string)
    (epr : EprPorts.t) :
  GoInt.inRange (RoomSettings.MaxConnections settings) ->
  Create manager settings e = (e', Ok id) ->
  resolveName settings = Ok roomName ->
  allocatePorts manager e (RoomSettings.MaxConnections settings) = Ok epr ->
  0 <= EprPorts.Min epr -> 0 <= EprPorts.Max epr ->
  Forall (fun c => Container.ID c <> id) (Engine.inventory e) ->
  Engine.fault e (Engine.CallInspect id) = None ->
  exists found err,
    Get manager id e' = (Some found, err) /\
    RoomSettings.Name found = roomName /\
    RoomSettings.MaxConnections found = EprPorts.Max epr - EprPorts.Min epr + 1 /\
    RoomSettings.MaxConnections found = RoomSettings.MaxConnections settings /\
    FromEnv zeroOptions (baseEnv manager epr ++ ToEnv settings)
    = (RoomSettings.Opts found, err).
Proof.
  intros Htyped Hcreate Hname Halloc Hmin Hmax Hfresh Hinspect.
  pose proof (allocatePorts_size _ _ _ _ Halloc) as Hsize.
  destruct (Create_Ok_fresh _ _ _ _ _ Hcreate Hfresh)
    as (roomName' & epr' & Hname' & Halloc' & Hfault & Hinv).
  rewrite Hname in Hname'. injection Hname' as <-.
  rewrite Halloc in Halloc'. injection Halloc' as <-.
  unfold Get, inspectContainer, Engine.ContainerInspect.
  rewrite Hfault, Hinspect, Hinv, find_fresh by done. simpl.
  unfold Engine.hasID. simpl. rewrite bool_decide_eq_true_2 by done. simpl.
  unfold isRoom, Container.Labels, Container.Env. simpl.
  rewrite roomLabels_canary, bool_decide_eq_true_2 by done.
  cbn [cfgLabels cfgEnv Container.Config containerConfigOf].
  rewrite roomLabels_name, getEprFromLabels_roomLabels by done.
  simpl. destruct (FromEnv zeroOptions _) as [opts err].
  eexists _, err. split; [reflexivity |]. simpl.
  rewrite add_sub_one_exact by (by rewrite Hsize). by rewrite Hsize.
Qed.

(** X18: a created room is listed with the rooms that were there.  After
    a successful [Create] that returned an id new to the inventory, for an
    allocated range whose bounds are not negative, a [List] that succeeded
    before succeeds after, and its entries are, in some order, the former
    entries and one more, the entry of the new room: its id, name and url,
    the image, and the running flag set. *)
Theorem List_after_Create (manager : RoomManagerCtx)
    (settings : RoomSettings.t Options) (e e' : Engine.t) (id roomName : string)
    (epr : EprPorts.t) (entries : list RoomEntry.t) :
  Create manager settings e = (e', Ok id) ->
  resolveName settings = Ok roomName ->
  allocatePorts manager e (RoomSettings.MaxConnections settings) = Ok epr ->
  0 <= EprPorts.Min epr -> 0 <= EprPorts.Max epr ->
  Forall (fun c => Container.ID c <> id) (Engine.inventory e) ->
  List manager e = Ok entries ->
  exists entries' entry,
    List manager e' = Ok entries' /\
    entries' ≡ₚ entry :: entries /\
    RoomEntry.ID entry = id /\
    RoomEntry.Name entry = roomName /\
    RoomEntry.URL entry
    = urlProto manager +:+ "://" +:+ config.TraefikDomain (config manager)
      +:+ "/" +:+ roomName +:+ "/" /\
    RoomEntry.Image entry = nekoImage /\
    RoomEntry.Running entry = true.
Proof.
  intros Hcreate Hname Halloc Hmin Hmax Hfresh HList.
  destruct (Create_Ok_fresh _ _ _ _ _ Hcreate Hfresh)
    as (roomName' & epr' & Hname' & Halloc' & Hfault & Hinv).
  rewrite Hname in Hname'. injection Hname' as <-.
  rewrite Halloc in Halloc'. injection Halloc' as <-.
  assert (List manager e'
          = Ok (entries
                ++ [{| RoomEntry.ID := id;
                       RoomEntry.URL := urlProto manager +:+ "://"
                                        +:+ config.TraefikDomain (config manager)
                                        +:+ "/" +:+ roomName +:+ "/";
                       RoomEntry.Name := roomName;
                       RoomEntry.MaxConnections :=
                         GoInt.add (GoInt.sub (EprPorts.Max epr) (EprPorts.Min epr)) 1;
                       RoomEntry.Image := nekoImage;
                       RoomEntry.Running := true;
                       RoomEntry.Status := "Up";
                       RoomEntry.Created := Engine.clock e |}])) as HList'.
  { destruct (listContainers e) as [containers | err] eqn:Hlist;
      [| unfold List in HList; rewrite Hlist in HList; discriminate].
    rewrite (List_mapM manager e containers Hlist) in HList.
    pose proof (listContainers_Ok e containers Hlist) as Hrooms.
    unfold listContainers, Engine.ContainerList in Hlist.
    destruct (Engine.fault e Engine.CallList) eqn:Hf; [discriminate |].
    erewrite List_mapM.
    2:{ unfold listContainers, Engine.ContainerList. rewrite Hfault, Hf. simpl.
        rewrite Hinv, filter_app, filter_cons_True, filter_nil, <- Hrooms; [done |].
        unfold isRoom, Container.Labels. simpl.
        by rewrite roomLabels_canary, bool_decide_eq_true_2. }
    apply mapM_result_app; [done |]. simpl.
    unfold entryOf, Container.Labels, Container.Image. simpl.
    rewrite roomLabels_name, roomLabels_url, getEprFromLabels_roomLabels by done.
    done. }
  eexists _, _. split; [exact HList' |].
  split; [symmetry; apply Permutation_cons_append |].
  simpl. by repeat split.
Qed.


(** X21: the workload of a returned [Create] has a binding under the key
    of the control port, [8080/udp], exactly when 8080 is a port of the
    allocated range; the key is then bound as that port of the range is, to
    host port 8080 on 0.0.0.0. *)
Theorem Create_control_port_binding (manager : RoomManagerCtx)
    (settings : RoomSettings.t Options) (e e' : Engine.t) (id : string) :
  Create manager settings e = (e', Ok id) ->
  exists epr c,
    allocatePorts manager e (RoomSettings.MaxConnections settings) = Ok epr /\
    c ∈ Engine.inventory e' /\ Container.ID c = id /\
    (is_Some (PortBindings (Container.Host c) !! "8080/udp") <->
     EprPorts.Min epr <= 8080 <= EprPorts.Max epr) /\
    (forall bs, PortBindings (Container.Host c) !! "8080/udp" = Some bs ->
       bs = [{| HostIP := "0.0.0.0"; HostPort := "8080" |}]).
Proof.
  intros Hcreate.
  destruct (Create_Ok_inv _ _ _ _ _ Hcreate)
    as (roomName & epr & c & _ & Halloc & Hin & Hid & _ & _ & _ & _ & _ & _ & Hhost).
  exists epr, c. rewrite Hhost. cbn [PortBindings hostConfigOf].
  split; [done |]. split; [done |]. split; [done |]. split.
  - exact (publishPorts_control_key epr).
  - intros bs Hlook.
    change "8080/udp" with (Sprintf_d frontendPort +:+ "/udp") in Hlook.
    unfold publishPorts in Hlook.
    apply publishLoop_only in Hlook as [(p & Hp & Hkey & ->) | Hempty];
      [| by rewrite lookup_empty in Hempty].
    apply portKey_inj in Hkey. by subst p.
Qed.

Lemma find_removed (id : string) (inv : list Container.t) :
  find (Engine.hasID id) (filter (fun c => Container.ID c <> id) inv) = None.
Proof.
  induction inv as [| c inv IH]; [done |].
  rewrite filter_cons. destruct (decide (Container.ID c <> id)) as [Hne | Heq]; [| done].
  simpl. unfold Engine.hasID at 1. by rewrite bool_decide_eq_false_2.
Qed.

(** X23: a removed room is gone.  After a successful [Remove], [Get] on
    that id returns an error and no settings, and no entry of a successful
    [List] carries that id. *)
Theorem removed_room_is_gone (manager : RoomManagerCtx) (id : string)
    (e e' : Engine.t) :
  Remove manager id e = (e', None) ->
  (exists err, Get manager id e' = (None, Some err)) /\
  (forall entries, List manager e' = Ok entries ->
     Forall (fun entry => RoomEntry.ID entry <> id) entries).
Proof.
  intros Hremove.
  destruct (Remove_success_inv manager id e e' Hremove) as (Hinv & Hfault).
  split.
  - unfold Get, inspectContainer, Engine.ContainerInspect.
    destruct (Engine.fault e' (Engine.CallInspect id)) as [err |]; simpl; [eauto |].
    rewrite Hinv, find_removed. simpl. eauto.
  - intros entries HList.
    destruct (listContainers e') as [containers | err] eqn:Hlist;
      [| unfold List in HList; rewrite Hlist in HList; discriminate].
    rewrite (List_mapM manager e' containers Hlist) in HList.
    apply mapM_result_Forall2 in HList.
    apply listContainers_Ok in Hlist. subst containers.
    apply Forall_forall. intros entry Hentry.
    apply list_elem_of_lookup in Hentry as [i Hi].
    destruct (Forall2_lookup_r _ _ _ _ _ HList Hi) as (c & Hc & Hdec).
    rewrite (entryOf_ID c entry Hdec).
    apply list_elem_of_lookup_2, list_elem_of_filter in Hc as [_ Hc].
    rewrite Hinv in Hc. by apply list_elem_of_filter in Hc as [Hne _].
Qed.
End Settings.

Arguments Create {Options} ToEnv NewUID manager settings e.
Arguments Get {Options} zeroOptions FromEnv {ty} manager id e.
#[local] Existing Instance port16.
Arguments resolveName {Options} NewUID settings.

(** ** The properties at work on the small deployment *)

(** The scenario of the design: an empty window of ten ports gives
    59000-59004 to a first room of five, 59005-59009 to a second one, and
    nothing to a third request; once the first room is gone its range is
    given out again. *)
Example scenario_first_room :
  allocatePorts demoManager emptyEngine 5 = Ok (EprPorts.mk 59000 59004).
Proof. exact eq_refl. Qed.

Example scenario_second_room :
  allocatePorts demoManager (engineWith [roomA]) 5 = Ok (EprPorts.mk 59005 59009).
Proof. exact eq_refl. Qed.

Example scenario_exhausted :
  allocatePorts demoManager (engineWith [roomA; roomB]) 1 = Err PortExhaustionError.
Proof. exact eq_refl. Qed.

Example scenario_reuse :
  allocatePorts demoManager (engineWith [roomB]) 5 = Ok (EprPorts.mk 59000 59004).
Proof. exact eq_refl. Qed.

Example scenario_invalid_size :
  allocatePorts demoManager emptyEngine 0 = Err InvalidRequestError.
Proof. exact eq_refl. Qed.

(** A damaged range is an error for [List] and [Get], never a zero range. *)
Example scenario_damaged :
  List demoManager (engineWith [roomA; damaged])
  = Err (CorruptMetadataError "m1k1o.neko_rooms.epr.min") /\
  Get tt demoFromEnv demoManager "r3" (engineWith [roomA; damaged])
  = (None, Some (CorruptMetadataError "m1k1o.neko_rooms.epr.min")).
Proof. split; exact eq_refl. Qed.

Lemma allocatePorts_first_fit_witness :
  getUsedPorts (engineWith [roomA]) = Ok [EprPorts.mk 59000 59004] /\
  (forall r, allocatePorts demoManager (engineWith [roomA]) 5 = Ok r ->
     EprPorts.size r = 5 /\
     EprPorts.Min (window demoManager) <= EprPorts.Min r /\
     EprPorts.Max r <= EprPorts.Max (window demoManager) /\
     Forall (EprPorts.disjoint r) [EprPorts.mk 59000 59004]).
Proof.
  split; [exact eq_refl |].
  apply (allocatePorts_first_fit demoManager (engineWith [roomA])
           [EprPorts.mk 59000 59004] 5); [exact eq_refl | lia].
Defined.

Lemma List_all_or_nothing_witness :
  exists err, List demoManager (engineWith [roomA; damaged]) = Err err.
Proof.
  apply (List_all_or_nothing demoManager (engineWith [roomA; damaged]) [roomA; damaged]);
    [exact eq_refl |].
  exists damaged. split; [apply list_elem_of_further, list_elem_of_here |].
  intros (_ & _ & (minStr & Hmin & [lo Hparse]) & _).
  change (Some "59k" = Some minStr) in Hmin. injection Hmin as <-.
  discriminate Hparse.
Defined.

Lemma List_only_canary_witness :
  List demoManager (engineWith [roomA; stranger]) = Ok [entryA] /\
  Forall2 (fun c entry => entryOf c = Ok entry) [roomA] [entryA].
Proof.
  split; [exact eq_refl |].
  exact (proj2 (List_only_canary demoManager (engineWith [roomA; stranger])
                  [entryA] eq_refl)).
Defined.


Lemma MaxConnections_is_range_size_witness :
  (exists entries,
     List demoManager (engineWith [roomA; roomB]) = Ok entries /\
     map RoomEntry.MaxConnections entries = [59004 - 59000 + 1; 59009 - 59005 + 1]) /\
  (exists settings err,
     Get tt demoFromEnv demoManager "r1" (engineWith [roomA; roomB]) = (Some settings, err) /\
     RoomSettings.MaxConnections settings = 59004 - 59000 + 1).
Proof.
  destruct (MaxConnections_is_range_size unit tt demoFromEnv demoManager
              (engineWith [roomA; roomB])) as [HList HGet].
  assert (forall lo hi, lo <= hi -> hi - lo < 65535 ->
            GoInt.inRange (EprPorts.Max (EprPorts.mk lo hi)
                           - EprPorts.Min (EprPorts.mk lo hi) + 1)) as Hfits.
  { intros lo hi Hle Hhi.
    cbv [GoInt.inRange intMin intMax port16 EprPorts.Max EprPorts.Min]. lia. }
  split.
  - destruct (HList [roomA; roomB] eq_refl) as (entries & HOk & Hall).
    { intros c Hc. apply elem_of_cons in Hc as [-> | Hc];
        [| apply list_elem_of_singleton in Hc as ->];
        (split; [by eexists | split; [by eexists |]]);
        (split; eexists; (split; [exact eq_refl | by eexists])). }
    exists entries. split; [exact HOk |].
    apply Forall2_cons_inv_l in Hall as (e1 & rest1 & (epr1 & Hepr1 & _ & H1) & Hall & ->).
    apply Forall2_cons_inv_l in Hall as (e2 & rest2 & (epr2 & Hepr2 & _ & H2) & Hall & ->).
    apply Forall2_nil_inv_l in Hall as ->.
    change (Ok (EprPorts.mk 59000 59004) = Ok epr1) in Hepr1. injection Hepr1 as <-.
    change (Ok (EprPorts.mk 59005 59009) = Ok epr2) in Hepr2. injection Hepr2 as <-.
    simpl. rewrite H1, H2 by (apply Hfits; lia). reflexivity.
  - destruct (HGet "r1" roomA (EprPorts.mk 59000 59004))
      as (settings & err & HOk & _ & Hexact);
      [exact eq_refl | by exists "a" | exact eq_refl |].
    exists settings, err. split; [exact HOk |]. apply Hexact, Hfits; lia.
Defined.

(** Counted in 16 bits, the range from 0 to 65535 has no connections: both
    [List] and [Get] report 0 for a workload whose metadata decodes to it,
    where [max - min + 1] is 65536. *)
Lemma MaxConnections_wraps_around :
  getEprFromLabels (Container.Labels fullRange) = Ok (EprPorts.mk 0 65535) /\
  (exists entry,
     List demoManager (engineWith [fullRange]) = Ok [entry] /\
     RoomEntry.MaxConnections entry = 0 /\
     RoomEntry.MaxConnections entry <> 65535 - 0 + 1) /\
  (exists settings,
     Get tt demoFromEnv demoManager "r5" (engineWith [fullRange]) = (Some settings, None) /\
     RoomSettings.MaxConnections settings = 0 /\
     RoomSettings.MaxConnections settings <> 65535 - 0 + 1).
Proof.
  split; [exact eq_refl |]. split.
  - eexists. split; [exact eq_refl |]. split; [exact eq_refl | discriminate].
  - eexists. split; [exact eq_refl |]. split; [exact eq_refl | discriminate].
Defined.

Lemma control_port_is_not_bound :
  let created := Create demoToEnv demoNewUID demoManager (demoSettings "a" 5) emptyEngine in
  created.2 = Ok "c0" /\
  exists c, Engine.inventory created.1 = [c] /\ Container.ID c = "c0" /\
    PortBindings (Container.Host c) !! "8080/udp" = None /\
    PortBindings (Container.Host c) !! "8080/tcp" = None /\
    dom (PortBindings (Container.Host c))
    = {[ "59000/udp"; "59001/udp"; "59002/udp"; "59003/udp"; "59004/udp" ]} /\
    map_Forall (fun _ bs => Forall (fun b => HostPort b <> "8080") bs)
               (PortBindings (Container.Host c)).
Proof.
  cbv zeta. split; [exact eq_refl |].
  eexists. split; [exact eq_refl |]. split; [exact eq_refl |].
  split; [exact eq_refl |]. split; [exact eq_refl |].
  split; apply (bool_decide_unpack _); vm_compute; exact I.
Defined.

Lemma Create_binds_the_range_witness :
  exists c,
    c ∈ Engine.inventory
          (Create demoToEnv demoNewUID demoManager8080 (demoSettings "a" 5) emptyEngine).1 /\
    Container.ID c = "c0" /\
    (forall p, 8079 <= p <= 8083 ->
       PortBindings (Container.Host c) !! (Sprintf_d p +:+ "/udp")
       = Some [{| HostIP := "0.0.0.0"; HostPort := Sprintf_d p |}]) /\
    PortBindings (Container.Host c) !! "8079/udp"
    = Some [{| HostIP := "0.0.0.0"; HostPort := "8079" |}] /\
    (exists key bs b,
       PortBindings (Container.Host c) !! key = Some bs /\ b ∈ bs /\
       HostPort b = "8080").
Proof.
  destruct (Create_binds_the_range unit demoToEnv demoNewUID demoManager8080
              (demoSettings "a" 5) emptyEngine
              (Create demoToEnv demoNewUID demoManager8080 (demoSettings "a" 5)
                 emptyEngine).1
              "c0" eq_refl)
    as (epr & c & Halloc & Hin & Hid & Hbound & _ & _ & Hctl).
  change (Ok (EprPorts.mk 8079 8083) = Ok epr) in Halloc. injection Halloc as <-.
  exists c. split; [exact Hin |]. split; [exact Hid |]. split; [exact Hbound |].
  split.
  - exact (Hbound 8079 (conj (Z.le_refl 8079) (Zle_bool_imp_le 8079 8083 eq_refl))).
  - exact (proj2 Hctl (conj (Zle_bool_imp_le 8079 8080 eq_refl)
                            (Zle_bool_imp_le 8080 8083 eq_refl))).
Defined.

Lemma Create_environment_witness :
  (exists c,
     c ∈ Engine.inventory
           (Create demoToEnv demoNewUID demoManager (demoSettings "" 5)
              (engineWith [roomA])).1 /\
     Container.ID c = "c1" /\
     Container.Env c
     = [ "NEKO_BIND=8080"; "NEKO_EPR=59005-59009"; "NEKO_NAT1TO1=10.0.0.1,10.0.0.2";
         "NEKO_SCREEN=1280x720@30" ]) /\
  (exists c,
     c ∈ Engine.inventory
           (Create demoToEnv demoNewUID demoManagerTLS (demoSettings "a" 5)
              emptyEngine).1 /\
     Container.ID c = "c0" /\
     Container.Env c
     = [ "NEKO_BIND=8080"; "NEKO_EPR=59000-59004"; "NEKO_NAT1TO1=";
         "NEKO_SCREEN=1280x720@30" ]).
Proof.
  split.
  - destruct (Create_environment unit demoToEnv demoNewUID demoManager (demoSettings "" 5)
                (engineWith [roomA])
                (Create demoToEnv demoNewUID demoManager (demoSettings "" 5)
                   (engineWith [roomA])).1
                "c1" eq_refl)
      as (epr & c & Halloc & Hin & Hid & Henv & _).
    change (Ok (EprPorts.mk 59005 59009) = Ok epr) in Halloc. injection Halloc as <-.
    exists c. split; [exact Hin |]. split; [exact Hid | exact Henv].
  - destruct (Create_environment unit demoToEnv demoNewUID demoManagerTLS
                (demoSettings "a" 5) emptyEngine
                (Create demoToEnv demoNewUID demoManagerTLS (demoSettings "a" 5)
                   emptyEngine).1
                "c0" eq_refl)
      as (epr & c & Halloc & Hin & Hid & Henv & _).
    change (Ok (EprPorts.mk 59000 59004) = Ok epr) in Halloc. injection Halloc as <-.
    exists c. split; [exact Hin |]. split; [exact Hid | exact Henv].
Defined.

Lemma Create_url_and_tls_witness :
  exists c,
    c ∈ Engine.inventory
          (Create demoToEnv demoNewUID demoManagerTLS (demoSettings "a" 5) emptyEngine).1 /\
    Container.Labels c !! "m1k1o.neko_rooms.url" = Some "https://neko.example.org/a/" /\
    Container.Labels c !! "traefik.http.routers.neko-room-a.tls" = Some "true" /\
    Container.Labels c !! "traefik.http.routers.neko-room-a.tls.certresolver" = Some "le".
Proof.
  destruct (Create_url_and_tls unit demoToEnv demoNewUID demoManagerTLS
              (demoSettings "a" 5) emptyEngine
              (Create demoToEnv demoNewUID demoManagerTLS (demoSettings "a" 5) emptyEngine).1
              "c0" eq_refl)
    as (roomName & c & scheme & Hname & Hin & _ & Hurl & Hhttps & _ & Htls & Hcert & _).
  change (Ok "a" = Ok roomName) in Hname. injection Hname as <-.
  assert (config.TraefikCertresolver (config demoManagerTLS) <> "") as Hres by done.
  assert (scheme = "https") as -> by (by apply Hhttps).
  exists c. split; [done |]. split; [exact Hurl |].
  split; [by apply Htls | by apply Hcert].
Defined.

Lemma operations_check_membership_witness :
  Remove demoManager "x1" (engineWith [roomA; stranger])
  = (engineWith [roomA; stranger], Some (NotFoundError "x1")) /\
  Start demoManager "x1" (engineWith [roomA; stranger])
  = (engineWith [roomA; stranger], Some (NotFoundError "x1")) /\
  Stop demoManager "x1" (engineWith [roomA; stranger])
  = (engineWith [roomA; stranger], Some (NotFoundError "x1")) /\
  Restart demoManager "x1" (engineWith [roomA; stranger])
  = (engineWith [roomA; stranger], Some (NotFoundError "x1")).
Proof.
  apply (operations_check_membership demoManager "x1" (engineWith [roomA; stranger])
           stranger eq_refl).
  change (Container.Labels stranger !! "m1k1o.neko_rooms.canary")
    with (delete "m1k1o.neko_rooms.canary"
            (roomLabels demoManager "intruder" (EprPorts.mk 59005 59009))
          !! "m1k1o.neko_rooms.canary").
  by rewrite lookup_delete_eq.
Defined.



(** ** The further properties at work on the small deployment *)

(** X20: a room that is given a name never uses the identifier generator:
    [Create] behaves the same whatever the generator would answer, and on
    success the given name is the name label and the suffix of the
    container name. *)
Theorem Create_given_name {Options : Type}
    (ToEnv : RoomSettings.t Options -> list string)
    (NewUID NewUID' : Z -> result string) (manager : RoomManagerCtx)
    (settings : RoomSettings.t Options) (e : Engine.t) :
  RoomSettings.Name settings <> "" ->
  Create ToEnv NewUID manager settings e = Create ToEnv NewUID' manager settings e /\
  (forall e' id, Create ToEnv NewUID manager settings e = (e', Ok id) ->
     exists c, c ∈ Engine.inventory e' /\ Container.ID c = id /\
       Container.Name c = containerPrefix +:+ RoomSettings.Name settings /\
       Container.Labels c !! "m1k1o.neko_rooms.name"
       = Some (RoomSettings.Name settings)).
Proof.
  intros Hname.
  assert (forall gen, resolveName gen settings = Ok (RoomSettings.Name settings))
    as Hres by (intros gen; unfold resolveName; by rewrite bool_decide_eq_false_2).
  split.
  - unfold Create. by rewrite !Hres.
  - intros e' id Hcreate.
    destruct (Create_Ok_inv _ _ _ _ _ _ _ _ Hcreate)
      as (roomName & epr & c & Hname' & _ & Hin & Hid & Hcname & _ & _ & Hlabels & _).
    rewrite Hres in Hname'. injection Hname' as <-.
    exists c. by rewrite Hlabels, roomLabels_name.
Qed.

Lemma Create_given_name_witness :
  Create demoToEnv demoNewUID demoManager (demoSettings "a" 5) emptyEngine
  = Create demoToEnv failingNewUID demoManager (demoSettings "a" 5) emptyEngine.
Proof.
  apply (Create_given_name demoToEnv demoNewUID failingNewUID demoManager
           (demoSettings "a" 5) emptyEngine).
  discriminate.
Defined.

Lemma Create_failure_modes_witness :
  Engine.inventory
    (Create demoToEnv demoNewUID demoManager (demoSettings "a" 5)
       (refusing (Engine.CallCreate "neko-room-a") [roomB])).1
  = [roomB].
Proof.
  destruct (Create_failure_modes unit demoToEnv demoNewUID demoManager
              (demoSettings "a" 5)
              (refusing (Engine.CallCreate "neko-room-a") [roomB])
              (Create demoToEnv demoNewUID demoManager (demoSettings "a" 5)
                 (refusing (Engine.CallCreate "neko-room-a") [roomB])).1
              (EngineError "refused") eq_refl)
    as [[-> _] | [(roomName & _ & _ & -> & _) | (roomName & c & _ & _ & _ & Hstart & _)]];
    [exact eq_refl | exact eq_refl | discriminate Hstart].
Defined.

Lemma Create_success_effect_witness :
  Engine.journal
    (Create demoToEnv demoNewUID demoManager (demoSettings "a" 5) (engineWith [roomB])).1
  = [Engine.CallCreate "neko-room-a"; Engine.CallStart "c1"] /\
  map Container.ID
    (Engine.inventory
       (Create demoToEnv demoNewUID demoManager (demoSettings "a" 5)
          (engineWith [roomB])).1)
  = ["r2"; "c1"].
Proof.
  destruct (Create_success_effect unit demoToEnv demoNewUID demoManager
              (demoSettings "a" 5) (engineWith [roomB])
              (Create demoToEnv demoNewUID demoManager (demoSettings "a" 5)
                 (engineWith [roomB])).1
              "c1" eq_refl)
    as (roomName & epr & Hname & _ & _ & Hjournal & Hids & _).
  change (Ok "a" = Ok roomName) in Hname. injection Hname as <-.
  rewrite Hjournal, Hids. split; exact eq_refl.
Defined.


Lemma room_names_keep_rooms_apart_witness :
  roomLabels demoManager "a" (EprPorts.mk 59000 59004) !! "m1k1o.neko_rooms.url"
  <> roomLabels demoManager "b" (EprPorts.mk 59005 59009) !! "m1k1o.neko_rooms.url".
Proof.
  apply (room_names_keep_rooms_apart demoManager "a" "b"). discriminate.
Defined.

Lemma Create_lease_is_written_consistently_witness :
  exists epr c,
    c ∈ Engine.inventory
          (Create demoToEnv demoNewUID demoManager (demoSettings "a" 5) emptyEngine).1 /\
    Container.ID c = "c0" /\
    Container.Labels c !! "m1k1o.neko_rooms.epr.min" = Some (Sprintf_d (EprPorts.Min epr)) /\
    Container.Labels c !! "m1k1o.neko_rooms.epr.max" = Some (Sprintf_d (EprPorts.Max epr)) /\
    "NEKO_EPR=" +:+ Sprintf_d (EprPorts.Min epr) +:+ "-" +:+ Sprintf_d (EprPorts.Max epr)
      ∈ Container.Env c.
Proof.
  destruct (Create_lease_is_written_consistently unit demoToEnv demoNewUID demoManager
              (demoSettings "a" 5) emptyEngine
              (Create demoToEnv demoNewUID demoManager (demoSettings "a" 5) emptyEngine).1
              "c0" eq_refl)
    as (epr & c & Hin & Hid & Hmin & Hmax & Henv & _).
  exists epr, c. repeat split; assumption.
Defined.

Lemma List_reports_first_failure_witness :
  exists good c rest entries,
    [roomA; damaged; noURL] = good ++ c :: rest /\
    Forall2 (fun c entry => entryOf c = Ok entry) good entries /\
    entryOf c = Err (CorruptMetadataError "m1k1o.neko_rooms.epr.min").
Proof.
  exact (List_reports_first_failure demoManager (engineWith [roomA; damaged; noURL])
           [roomA; damaged; noURL] (CorruptMetadataError "m1k1o.neko_rooms.epr.min")
           eq_refl eq_refl).
Defined.

Lemma Get_does_not_need_url_witness :
  (exists settings err,
     Get tt demoFromEnv demoManager "r4" (engineWith [roomA; noURL])
     = (Some settings, err)) /\
  (exists err, List demoManager (engineWith [roomA; noURL]) = Err err).
Proof.
  apply (Get_does_not_need_url unit tt demoFromEnv demoManager "r4"
           (engineWith [roomA; noURL]) noURL [roomA; noURL] eq_refl eq_refl).
  - apply list_elem_of_further, list_elem_of_here.
  - by exists "d".
  - by exists (EprPorts.mk 59005 59009).
  - apply lookup_delete_eq.
Defined.

Lemma Remove_success_witness :
  Engine.inventory (Remove demoManager "r1" (engineWith [roomA; stranger; roomB])).1
  = [stranger; roomB].
Proof.
  destruct (Remove_success demoManager "r1" (engineWith [roomA; stranger; roomB])
              (Remove demoManager "r1" (engineWith [roomA; stranger; roomB])).1 eq_refl)
    as (_ & -> & _).
  exact eq_refl.
Defined.

Lemma Remove_failure_witness :
  Engine.inventory
    (Remove demoManager "r1" (refusing (Engine.CallStop "r1") [roomA; roomB])).1
  = [roomA; roomB].
Proof.
  destruct (Remove_failure demoManager "r1"
              (refusing (Engine.CallStop "r1") [roomA; roomB])
              (Remove demoManager "r1"
                 (refusing (Engine.CallStop "r1") [roomA; roomB])).1
              (EngineError "refused") eq_refl)
    as [[-> _] | [(_ & -> & _) | (Hremove & _)]];
    [exact eq_refl | exact eq_refl | discriminate Hremove].
Defined.

Lemma Running_follows_lifecycle_witness :
  (Stop demoManager "r1" (engineWith [roomA; roomB])).2 = None /\
  forall entry,
    entryOf (Container.withState roomA "exited" "Exited") = Ok entry ->
    RoomEntry.Running entry = false.
Proof.
  split; [exact eq_refl |]. intros entry Hentry.
  apply (Running_follows_lifecycle demoManager "r1" (engineWith [roomA; roomB])
           (Stop demoManager "r1" (engineWith [roomA; roomB])).1
           (Container.withState roomA "exited" "Exited") entry).
  - apply list_elem_of_here.
  - exact eq_refl.
  - exact Hentry.
  - exact eq_refl.
Defined.

Lemma removed_room_is_gone_witness :
  exists err,
    Get tt demoFromEnv demoManager "r1"
      (Remove demoManager "r1" (engineWith [roomA; roomB])).1
    = (None, Some err).
Proof.
  apply (removed_room_is_gone unit tt demoFromEnv demoManager "r1"
           (engineWith [roomA; roomB])
           (Remove demoManager "r1" (engineWith [roomA; roomB])).1 eq_refl).
Defined.

Lemma Remove_undoes_Create_witness :
  exists e2,
    Remove demoManager "c1"
      (Create demoToEnv demoNewUID demoManager (demoSettings "a" 5) (engineWith [roomB])).1
    = (e2, None) /\
    Engine.inventory e2 = [roomB].
Proof.
  destruct (Remove_undoes_Create unit demoToEnv demoNewUID demoManager
              (demoSettings "a" 5) (engineWith [roomB])
              (Create demoToEnv demoNewUID demoManager (demoSettings "a" 5)
                 (engineWith [roomB])).1
              "c1" eq_refl)
    as (e2 & Hremove & Hinv & _);
    [| exact eq_refl | exact eq_refl | exact eq_refl |].
  - repeat constructor. discriminate.
  - exists e2. split; [exact Hremove | exact Hinv].
Defined.

Lemma Get_after_Create_witness :
  exists found err,
    Get tt demoFromEnv demoManager "c1"
      (Create demoToEnv demoNewUID demoManager (demoSettings "a" 5) (engineWith [roomB])).1
    = (Some found, err) /\
    RoomSettings.Name found = "a" /\
    RoomSettings.MaxConnections found = 59004 - 59000 + 1 /\
    RoomSettings.MaxConnections found = 5.
Proof.
  destruct (Get_after_Create unit tt demoToEnv demoFromEnv demoNewUID (ty := port16)
              demoManager
              (demoSettings "a" 5) (engineWith [roomB])
              (Create demoToEnv demoNewUID demoManager (demoSettings "a" 5)
                 (engineWith [roomB])).1
              "c1" "a" (EprPorts.mk 59000 59004)
              (conj (Zle_bool_imp_le 0 5 eq_refl) (Zle_bool_imp_le 5 65535 eq_refl))
              eq_refl eq_refl eq_refl)
    as (found & err & HGet & Hname & Hmax & Hasked & _);
    [simpl; lia | simpl; lia | repeat constructor; discriminate | exact eq_refl |].
  exists found, err. split; [exact HGet |]. split; [exact Hname |].
  split; [exact Hmax | exact Hasked].
Defined.

Lemma List_after_Create_witness :
  exists entries' entry,
    List demoManager
      (Create demoToEnv demoNewUID demoManager (demoSettings "b" 5) (engineWith [roomA])).1
    = Ok entries' /\
    entries' ≡ₚ [entry; entryA] /\
    RoomEntry.ID entry = "c1" /\
    RoomEntry.Name entry = "b" /\
    RoomEntry.URL entry = "http://neko.example.org/b/" /\
    RoomEntry.Image entry = "m1k1o/neko:latest" /\
    RoomEntry.Running entry = true.
Proof.
  apply (List_after_Create unit demoToEnv demoNewUID demoManager
           (demoSettings "b" 5) (engineWith [roomA])
           (Create demoToEnv demoNewUID demoManager (demoSettings "b" 5)
              (engineWith [roomA])).1
           "c1" "b" (EprPorts.mk 59005 59009) [entryA] eq_refl eq_refl eq_refl);
    [simpl; lia | simpl; lia | repeat constructor; discriminate | exact eq_refl].
Defined.

Lemma Create_port_counts_witness :
  (exists c,
     c ∈ Engine.inventory
           (Create demoToEnv demoNewUID demoManager (demoSettings "a" 5) emptyEngine).1 /\
     Container.ID c = "c0" /\
     size (PortBindings (Container.Host c)) = 5%nat /\
     size (cfgExposedPorts (Container.Config c)) = 6%nat) /\
  (exists c,
     c ∈ Engine.inventory
           (Create demoToEnv demoNewUID demoManager8080 (demoSettings "a" 5) emptyEngine).1 /\
     Container.ID c = "c0" /\
     size (PortBindings (Container.Host c)) = 5%nat /\
     size (cfgExposedPorts (Container.Config c)) = 5%nat).
Proof.
  split.
  - destruct (Create_port_counts unit demoToEnv demoNewUID demoManager
                (demoSettings "a" 5) emptyEngine
                (Create demoToEnv demoNewUID demoManager (demoSettings "a" 5)
                   emptyEngine).1
                "c0" eq_refl)
      as (epr & c & Halloc & Hin & Hid & Hbound & Hexposed).
    change (Ok (EprPorts.mk 59000 59004) = Ok epr) in Halloc. injection Halloc as <-.
    exists c. split; [exact Hin |]. split; [exact Hid |]. split; [exact Hbound |].
    exact (eq_trans Hexposed (f_equal S Hbound)).
  - destruct (Create_port_counts unit demoToEnv demoNewUID demoManager8080
                (demoSettings "a" 5) emptyEngine
                (Create demoToEnv demoNewUID demoManager8080 (demoSettings "a" 5)
                   emptyEngine).1
                "c0" eq_refl)
      as (epr & c & Halloc & Hin & Hid & Hbound & Hexposed).
    change (Ok (EprPorts.mk 8079 8083) = Ok epr) in Halloc. injection Halloc as <-.
    exists c. split; [exact Hin |]. split; [exact Hid |]. split; [exact Hbound |].
    exact (eq_trans Hexposed Hbound).
Defined.

Lemma Create_control_port_binding_witness :
  (exists c,
     c ∈ Engine.inventory
           (Create demoToEnv demoNewUID demoManager8080 (demoSettings "a" 5) emptyEngine).1 /\
     Container.ID c = "c0" /\
     PortBindings (Container.Host c) !! "8080/udp"
     = Some [{| HostIP := "0.0.0.0"; HostPort := "8080" |}]) /\
  (exists c,
     c ∈ Engine.inventory
           (Create demoToEnv demoNewUID demoManager (demoSettings "a" 5) emptyEngine).1 /\
     Container.ID c = "c0" /\
     PortBindings (Container.Host c) !! "8080/udp" = None).
Proof.
  split.
  - destruct (Create_control_port_binding unit demoToEnv demoNewUID demoManager8080
                (demoSettings "a" 5) emptyEngine
                (Create demoToEnv demoNewUID demoManager8080 (demoSettings "a" 5)
                   emptyEngine).1
                "c0" eq_refl)
      as (epr & c & Halloc & Hin & Hid & Hiff & Hvalue).
    change (Ok (EprPorts.mk 8079 8083) = Ok epr) in Halloc. injection Halloc as <-.
    exists c. split; [exact Hin |]. split; [exact Hid |].
    destruct (proj2 Hiff (conj (Zle_bool_imp_le 8079 8080 eq_refl)
                               (Zle_bool_imp_le 8080 8083 eq_refl))) as [bs Hbs].
    rewrite Hbs. f_equal. exact (Hvalue bs Hbs).
  - destruct (Create_control_port_binding unit demoToEnv demoNewUID demoManager
                (demoSettings "a" 5) emptyEngine
                (Create demoToEnv demoNewUID demoManager (demoSettings "a" 5)
                   emptyEngine).1
                "c0" eq_refl)
      as (epr & c & Halloc & Hin & Hid & Hiff & _).
    change (Ok (EprPorts.mk 59000 59004) = Ok epr) in Halloc. injection Halloc as <-.
    exists c. split; [exact Hin |]. split; [exact Hid |].
    destruct (PortBindings (Container.Host c) !! "8080/udp") as [bs |] eqn:Hlook;
      [| reflexivity].
    destruct (proj1 Hiff (ex_intro _ bs eq_refl)) as [Hlo _].
    exfalso. exact (Hlo eq_refl).
Defined.

End room.
